(** * dependency_layer_packager: a shallow embedding of [lib/index.ts]

    The plugin class [DependencyLayerPackager] is embedded function by
    function.  A JavaScript string is modelled by its UTF-8 encoding, a
    [string] of bytes; the output that a process has written is modelled by
    the text that [toString()] decodes from it.  The external world (child
    processes, the file system, the operator's terminal) is an oracle that
    answers from the history of what the plugin has done so far; the
    plugin's effects are recorded as a trace of events, and JavaScript
    exceptions are the error component of a small state-and-error monad. *)

From Stdlib Require Import List String Ascii Bool Arith ZArith Lia.
Import ListNotations.
Local Open Scope list_scope.
Local Open Scope string_scope.

(** ** JavaScript string primitives used by the plugin *)

Module JsString.

(** The line feed character, written ["\n"] in the source. *)
Definition LF : ascii := "010"%char.

(** A string of one byte, for building literals with control characters,
    and the strings of two and three bytes that encode the characters
    outside ASCII. *)
Definition char (c : ascii) : string := String c EmptyString.
Definition utf8_2 (a b : ascii) : string := String a (String b EmptyString).
Definition utf8_3 (a b c : ascii) : string :=
  String a (String b (String c EmptyString)).

(** The white space of JavaScript, removed by [String.prototype.trim] and
    matched by the regular expression class [\s]: the characters
    WhiteSpace and LineTerminator of ECMAScript, each by its encoding. *)
Definition whiteSpace : list string :=
  [ char "009"; char "010"; char "011"; char "012"; char "013"; char "032";
    utf8_2 "194" "160";                                   (* U+00A0 *)
    utf8_3 "225" "154" "128";                             (* U+1680 *)
    utf8_3 "226" "128" "128"; utf8_3 "226" "128" "129";   (* U+2000, U+2001 *)
    utf8_3 "226" "128" "130"; utf8_3 "226" "128" "131";   (* U+2002, U+2003 *)
    utf8_3 "226" "128" "132"; utf8_3 "226" "128" "133";   (* U+2004, U+2005 *)
    utf8_3 "226" "128" "134"; utf8_3 "226" "128" "135";   (* U+2006, U+2007 *)
    utf8_3 "226" "128" "136"; utf8_3 "226" "128" "137";   (* U+2008, U+2009 *)
    utf8_3 "226" "128" "138";                             (* U+200A *)
    utf8_3 "226" "128" "168"; utf8_3 "226" "128" "169";   (* U+2028, U+2029 *)
    utf8_3 "226" "128" "175";                             (* U+202F *)
    utf8_3 "226" "129" "159";                             (* U+205F *)
    utf8_3 "227" "128" "128";                             (* U+3000 *)
    utf8_3 "239" "187" "191" ].                           (* U+FEFF *)

(** [t] is one white space character. *)
Definition isWhiteSpaceChar (t : string) : bool := existsb (String.eqb t) whiteSpace.

(** The character of one byte [c] is white space: tab, line feed, vertical
    tab, form feed, carriage return or space. *)
Definition isWhiteSpace (c : ascii) : bool := isWhiteSpaceChar (char c).

(** The lower-case form of a character of ASCII: the letters A to Z are
    mapped to a to z, every other byte is left as it is. *)
Definition lowerChar (c : ascii) : ascii :=
  let n := nat_of_ascii c in
  if (65 <=? n)%nat && (n <=? 90)%nat then ascii_of_nat (n + 32) else c.

(** The two characters outside ASCII whose lower-case form has a letter of
    ASCII: the Kelvin sign U+212A becomes [k], and the capital I with dot
    above U+0130 becomes [i] followed by the combining dot U+0307. *)
Definition KELVIN_SIGN : string := utf8_3 "226" "132" "170".
Definition CAPITAL_I_DOT : string := utf8_2 "196" "176".
Definition SMALL_I_DOT : string := utf8_3 "i" "204" "135".

(** [s.toLowerCase()].  Every other character outside ASCII has a
    lower-case form outside ASCII too, made of bytes from 128 up like the
    character itself, and is kept as it is: the plugin only searches the
    lower-case text for phrases of ASCII, in which no such byte can take
    part. *)
Fixpoint toLowerCase (s : string) : string :=
  match s with
  | EmptyString => EmptyString
  | String c1 r1 =>
      match r1 with
      | EmptyString => String (lowerChar c1) EmptyString
      | String c2 r2 =>
          if String.eqb (utf8_2 c1 c2) CAPITAL_I_DOT
          then SMALL_I_DOT ++ toLowerCase r2
          else match r2 with
               | EmptyString => String (lowerChar c1) (toLowerCase r1)
               | String c3 r3 =>
                   if String.eqb (utf8_3 c1 c2 c3) KELVIN_SIGN
                   then String "k" (toLowerCase r3)
                   else String (lowerChar c1) (toLowerCase r1)
               end
      end
  end.

(** [s.includes(needle)] *)
Fixpoint includes (s needle : string) : bool :=
  if prefix needle s then true
  else match s with
       | EmptyString => false
       | String _ s' => includes s' needle
       end.

(** [s.trimStart()]: the white space characters at the start are removed. *)
Fixpoint trimStart (s : string) : string :=
  match s with
  | EmptyString => EmptyString
  | String c1 r1 =>
      if isWhiteSpace c1 then trimStart r1
      else match r1 with
           | EmptyString => s
           | String c2 r2 =>
               if isWhiteSpaceChar (utf8_2 c1 c2) then trimStart r2
               else match r2 with
                    | EmptyString => s
                    | String c3 r3 =>
                        if isWhiteSpaceChar (utf8_3 c1 c2 c3) then trimStart r3 else s
                    end
           end
  end.

(** [s.trimEnd()]: from the end, a character is dropped when what is kept
    after it is nothing and the character is white space. *)
Fixpoint trimEnd (s : string) : string :=
  match s with
  | EmptyString => EmptyString
  | String c s' =>
      let t := String c (trimEnd s') in
      if isWhiteSpaceChar t then EmptyString else t
  end.

(** [s.trim()], also the effect of [s.replace(/^\s+|\s+$/g, "")] *)
Definition trim (s : string) : string := trimEnd (trimStart s).

(** [s.split(sep)] for a one-character separator *)
Fixpoint split (sep : ascii) (s : string) : list string :=
  match s with
  | EmptyString => [EmptyString]
  | String c s' =>
      if Ascii.eqb c sep then EmptyString :: split sep s'
      else match split sep s' with
           | h :: t => String c h :: t
           | [] => [String c EmptyString]
           end
  end.

End JsString.
Import JsString.

(** ** Values that may be [undefined] *)

(** [`${v}`] for a string that may be [undefined]. *)
Definition template (v : option string) : string :=
  match v with Some s => s | None => "undefined" end.

(** [v || d] on strings: the empty string and [undefined] are falsy. *)
Definition orString (v : option string) (d : string) : string :=
  match v with
  | Some s => if String.eqb s "" then d else s
  | None => d
  end.

(** [v || d] on arrays: every array, also the empty one, is truthy. *)
Definition orList {A} (v : option (list A)) (d : list A) : list A :=
  match v with Some l => l | None => d end.

(** [v || d] on booleans. *)
Definition orBool (v : option bool) (d : bool) : bool :=
  match v with Some true => true | _ => d end.

(** Truthiness of an optional boolean, as tested by [!v]. *)
Definition truthy (v : option bool) : bool :=
  match v with Some true => true | _ => false end.

(** ** Exceptions and results *)

Inductive exn : Type :=
| JsError (message : string)     (* [new Error(message)] *)
| SlsError (message : string)    (* [new this.sls.classes.Error(message)] *)
| TypeError (message : string)   (* a property read or call on [undefined] *)
| FsError (message : string).    (* thrown by a synchronous fs-extra / zip call *)

Inductive Result (A : Type) : Type :=
| Ok (a : A)
| Throw (e : exn).
Arguments Ok {A} a.
Arguments Throw {A} e.

Definition fullPluginName : string := "dependency_layer_packager".
Definition configPluginName : string := "dependencyLayer".

(** The exception raised by [this.error(msg)]. *)
Definition pluginError (msg : string) : exn :=
  JsError ("[" ++ fullPluginName ++ "] " ++ msg).

(** ** Configuration *)

(** The object found at [sls.service.custom.dependencyLayer]: every option
    may be absent.  [abortOnPackagingErrors] is outside the interface
    [DependencyLayerConfig]; it is a boolean flag like [mountSSH]. *)
Record RawConfig : Type := {
  raw_playbooksFolder : option string;
  raw_requirementsFile : option string;
  raw_globalRequirements : option (list string);
  raw_globalIncludes : option (list string);
  raw_buildDir : option string;
  raw_containerName : option string;
  raw_cleanup : option bool;
  raw_dockerEnvs : option (list string);
  raw_mountSSH : option bool;
  raw_dockerImage : option string;
  raw_abortOnPackagingErrors : option bool
}.

(** The empty object [{}]. *)
Definition emptyConfig : RawConfig :=
  {| raw_playbooksFolder := None; raw_requirementsFile := None;
     raw_globalRequirements := None; raw_globalIncludes := None;
     raw_buildDir := None; raw_containerName := None; raw_cleanup := None;
     raw_dockerEnvs := None; raw_mountSSH := None; raw_dockerImage := None;
     raw_abortOnPackagingErrors := None |}.

(** [interface DependencyLayerConfig], with the two properties that
    [getPluginConfig] adds to the object.  [playbooksFolder] and [cleanup]
    are never defaulted and stay optional. *)
Record DependencyLayerConfig : Type := {
  playbooksFolder : option string;
  requirementsFile : string;
  globalRequirements : list string;
  globalIncludes : list string;
  buildDir : string;
  containerName : string;
  cleanup : option bool;
  dockerEnvs : list string;
  mountSSH : bool;
  dockerImage : string;
  abortOnPackagingErrors : bool;
  config_dockerServicePath : string
}.

(** ** The host framework object [this.sls] *)

Record Package : Type := { artifact : option string }.

Record FunctionConfig : Type := {
  fn_name : option string;
  fn_package : option Package
}.

(** An entry of [sls.service.layers].  [layer_includes] stands for the
    include paths that the layer declares; [selectAll] does not read
    them (the line that did is commented out in the source). *)
Record Layer : Type := {
  layer_path : option string;
  layer_compatibleRuntimes : option (list string);
  layer_compatibleArchitectures : option (list string);
  layer_name : option string;
  layer_includes : option (list string)
}.

Record Custom : Type := { dependencyLayer : option RawConfig }.

Record Serverless : Type := {
  custom : option Custom;                      (* [sls.service.custom] *)
  provider_runtime : option string;            (* [sls.service.provider.runtime] *)
  layers : list (string * Layer)               (* [sls.service.layers], in key order *)
}.

(** What [selectAll] hands to [makePackage].  [includes_] is the property
    [includes] that [makePackage] reads (the name [includes] is taken by the
    string method). *)
Record Target : Type := {
  path : option string;
  compatibleRuntimes : option (list string);
  compatibleArchitectures : option (list string);
  name : option string;
  includes_ : option (list string)
}.

(** [getPluginConfig()] *)
Definition getPluginConfig (sls : Serverless) : Result DependencyLayerConfig :=
  match custom sls with
  | None => Throw (TypeError "Cannot read properties of undefined")
  | Some c =>
      let config := match dependencyLayer c with Some r => r | None => emptyConfig end in
      (* [if (!config)]: an object is never falsy *)
      let requirementsFile' := orString (raw_requirementsFile config) "requirements.txt" in
      let globalRequirements' :=
        orList (raw_globalRequirements config) ["./functions/requirements.txt"] in
      match raw_buildDir config with
      | Some (String a b) =>
          Ok {| playbooksFolder := raw_playbooksFolder config;
                requirementsFile := requirementsFile';
                globalRequirements := globalRequirements';
                buildDir := String a b;
                globalIncludes := orList (raw_globalIncludes config) ["./common_files"];
                dockerImage :=
                  orString (raw_dockerImage config)
                           ("lambci/lambda:build-" ++ template (provider_runtime sls));
                containerName := orString (raw_containerName config) fullPluginName;
                mountSSH := orBool (raw_mountSSH config) false;
                dockerEnvs := orList (raw_dockerEnvs config) [];
                abortOnPackagingErrors := orBool (raw_abortOnPackagingErrors config) true;
                config_dockerServicePath := "/var/task";
                cleanup := raw_cleanup config |}
      | _ => Throw (pluginError "No buildDir configuration specified")
      end
  end.

(** ** The outside world *)

(** What the plugin does to the outside world, in program order. *)
Inductive event : Type :=
| EvCliLog (msg : string)                       (* [this.sls.cli.log(msg)] *)
| EvConsoleLog (args : list string)             (* [console.log(...args)] *)
| EvSpawnSync (cmd : string) (args : list string)   (* [ChildProcess.spawnSync] *)
| EvQuestion (prompt : string)                  (* [readLineSync.question] *)
| EvEnsureDir (dir : string)                    (* [fse.ensureDir], not awaited *)
| EvEnsureDirSync (dir : string)                (* [fse.ensureDirSync] *)
| EvCopySync (src dest : string)                (* [fse.copySync] *)
| EvRemove (dir : string)                       (* [fse.remove] *)
| EvZip (dir archive : string).                 (* [zipper.sync.zip(dir).compress().save(archive)] *)

(** The object returned by [ChildProcess.spawnSync].  The two buffers are
    given by the text that [toString()] decodes from them; a buffer has
    length zero exactly when its text is empty. *)
Record SpawnSyncReturns : Type := {
  spawn_error : option string;     (* [ret.error.message], when the launch failed *)
  spawn_status : option Z;         (* [ret.status], the exit code *)
  spawn_stdout : string;           (* [ret.stdout.toString()] *)
  spawn_stderr : string            (* [ret.stderr.toString()] *)
}.

(** The environment answers every question from the history of events. *)
Record World : Type := {
  spawnSync : list event -> string -> list string -> SpawnSyncReturns;
  question : list event -> string -> string;
  pathExists : list event -> string -> bool;
  statSize : list event -> string -> Z;
  (** the exception, if any, of a synchronous file operation *)
  fsThrows : list event -> event -> option string;
  (** the reason, if any, with which the promise of [fse.remove] rejects *)
  removeRejects : list event -> string -> option string;
  cwd : string;                              (* [process.cwd()] *)
  env_HOME : option string;                  (* [process.env.HOME] *)
  path_join : string -> string -> string;    (* [Path.join] *)
  upath_normalize : string -> string         (* [upath.normalize] *)
}.

(** The mutable state: the trace, the log lines that rejected promises
    will print once the running code yields, and the object
    [sls.service.functions] (in key order). *)
Record State : Type := {
  trace : list event;
  pending : list string;
  functions : list (string * FunctionConfig)
}.

Definition record (e : event) (s : State) : State :=
  {| trace := trace s ++ [e]; pending := pending s; functions := functions s |}.

(** ** A state and exception monad *)

Definition M (A : Type) : Type := State -> Result A * State.

Definition ret {A} (a : A) : M A := fun s => (Ok a, s).

Definition throw {A} (e : exn) : M A := fun s => (Throw e, s).

Definition bind {A B} (m : M A) (k : A -> M B) : M B :=
  fun s =>
    match m s with
    | (Ok a, s') => k a s'
    | (Throw e, s') => (Throw e, s')
    end.

Declare Scope js_scope.
Delimit Scope js_scope with js.
Notation "x <- m ;; k" := (bind m (fun x => k))
  (at level 100, m at next level, right associativity) : js_scope.
Notation "m ;; k" := (bind m (fun _ => k))
  (at level 100, right associativity) : js_scope.
Local Open Scope js_scope.

(** [xs.forEach(f)] for a callback that may throw. *)
Fixpoint forEach {A} (f : A -> M unit) (xs : list A) : M unit :=
  match xs with
  | [] => ret tt
  | x :: xs' => f x ;; forEach f xs'
  end.

(** [promise.map(f)] of Bluebird for a synchronous mapper: the elements
    are mapped in order and the first exception rejects the promise. *)
Fixpoint mapM {A B} (f : A -> M B) (xs : list A) : M (list B) :=
  match xs with
  | [] => ret []
  | x :: xs' => y <- f x ;; ys <- mapM f xs' ;; ret (y :: ys)
  end.

Definition emit (e : event) : M unit := fun s => (Ok tt, record e s).

(** A promise that nobody awaits: [None] when it fulfils, [Some reason]
    when it rejects. *)
Definition Promise : Type := option string.

(** [promise.catch((err) => { this.log(err) })]: the handler runs after
    the running code has yielded. *)
Definition catchLog (line : string -> string) (p : Promise) : M unit :=
  fun s =>
    match p with
    | None => (Ok tt, s)
    | Some err =>
        (Ok tt, {| trace := trace s; pending := pending s ++ [line err];
                   functions := functions s |})
    end.

(** The handlers of rejected promises run. *)
Definition settle (s : State) : State :=
  {| trace := trace s ++ map EvCliLog (pending s); pending := [];
     functions := functions s |}.

(** ** The class [DependencyLayerPackager] *)

Definition DQUOTE : ascii := "034"%char.

Definition dockerServicePath : string := "/var/task".

Section DependencyLayerPackager.

Variable sls : Serverless.
Variable w : World.
Variable pluginConfig : DependencyLayerConfig.

(** [this.error(msg)] *)
Definition error {A} (msg : string) : M A := throw (pluginError msg).

(** The line printed by [this.log(msg)]. *)
Definition logLine (msg : string) : string := "[" ++ fullPluginName ++ "] " ++ msg.

(** [this.log(msg)] *)
Definition log (msg : string) : M unit := emit (EvCliLog (logLine msg)).

Definition consoleLog (args : list string) : M unit := emit (EvConsoleLog args).

(** [ChildProcess.spawnSync(cmd, args)] *)
Definition spawn (cmd : string) (args : list string) : M SpawnSyncReturns :=
  fun s => (Ok (spawnSync w (trace s) cmd args), record (EvSpawnSync cmd args) s).

(** [readLineSync.question(prompt)] *)
Definition readLine (prompt : string) : M string :=
  fun s => (Ok (question w (trace s) prompt), record (EvQuestion prompt) s).

(** [fse.pathExistsSync(p)] and [fse.existsSync(p)] *)
Definition existsSync (p : string) : M bool :=
  fun s => (Ok (pathExists w (trace s) p), s).

(** [fse.statSync(p).size] *)
Definition statSyncSize (p : string) : M Z :=
  fun s => (Ok (statSize w (trace s) p), s).

(** A synchronous file operation: attempted, and it may throw. *)
Definition fsSync (e : event) : M unit :=
  fun s =>
    match fsThrows w (trace s) e with
    | Some message => (Throw (FsError message), record e s)
    | None => (Ok tt, record e s)
    end.

(** [fse.remove(dir)] *)
Definition remove (dir : string) : M Promise :=
  fun s => (Ok (removeRejects w (trace s) dir), record (EvRemove dir) s).

Definition defaultPrompt : string :=
  char LF ++ char LF
  ++ "??? Do you wish to continue deployment with the stated errors? " ++ char LF.
Definition defaultYesText : string := "Continuing Deployment!".
Definition defaultNoText : string := "ABORTING DEPLOYMENT".

(** [requestUserConfirmation(prompt, yesText, noText)] *)
Definition requestUserConfirmation (prompt yesText noText : string) : M unit :=
  response <- readLine prompt ;;
  if includes (toLowerCase response) "y" then
    consoleLog [yesText]
  else
    (consoleLog [noText] ;;
     error "Aborting").

(** [runProcess(cmd, args)] *)
Definition runProcess (cmd : string) (args : list string) : M string :=
  ret_ <- spawn cmd args ;;
  match spawn_error ret_ with
  | Some message => throw (SlsError ("[" ++ fullPluginName ++ "] " ++ message))
  | None =>
      let out := spawn_stdout ret_ in
      (if negb (String.length (spawn_stderr ret_) =? 0)%nat then
         let errorText := trim (spawn_stderr ret_) in
         log errorText ;;
         let countErrorNewLines := List.length (split LF errorText) in
         if negb (includes errorText "ERROR:")
            && (countErrorNewLines <? 2)%nat
            && includes (toLowerCase errorText) "git clone"
         then ret tt
         else if includes (toLowerCase errorText) "warning"
                 && negb (includes (toLowerCase errorText) "error")
         then ret tt
         else if includes (toLowerCase errorText) "docker"
         then (consoleLog ["stdout:"; out] ;;
               error "Docker Error Detected")
         else (consoleLog [("___ERROR DETECTED, BEGIN STDOUT____" ++ char LF)%string; out] ;;
               requestUserConfirmation defaultPrompt defaultYesText defaultNoText)
       else ret tt) ;;
      ret out
  end.

(** [clean()] *)
Definition clean : M bool :=
  if negb (truthy (cleanup pluginConfig)) then
    (log ("Cleanup is set to " ++ char DQUOTE ++ "false" ++ char DQUOTE
          ++ ". Build directory and Docker container (if used) will be retained") ;;
     ret false)
  else
    (log "Cleaning build directory..." ;;
     p <- remove (buildDir pluginConfig) ;;
     catchLog logLine p ;;
     log "Removing Docker container..." ;;
     runProcess "docker" ["stop"; containerName pluginConfig; "-t"; "0"] ;;
     ret true).

(** [selectAll()] *)
Definition selectAll : list Target :=
  map (fun kv : string * Layer =>
         let target := snd kv in
         {| path := layer_path target;
            compatibleRuntimes := layer_compatibleRuntimes target;
            compatibleArchitectures := layer_compatibleArchitectures target;
            name := layer_name target;
            includes_ := None |})
      (layers sls).

(** [installRequirements(buildPath, requirementsPath)]; the result is
    [undefined] on the two early returns. *)
Definition installRequirements (buildPath requirementsPath : string) : M (option string) :=
  present <- existsSync requirementsPath ;;
  if negb present then ret None
  else
    size <- statSyncSize requirementsPath ;;
    if (size =? 0)%Z then
      (log ("WARNING: requirements file at " ++ requirementsPath ++ " is empty. Skiping.") ;;
       ret None)
    else
      let args := ["install"; "--upgrade"; "-t"; upath_normalize w buildPath; "-r"] in
      let cmd := "docker" in
      let args := app ["exec"; containerName pluginConfig; "pip"] args in
      let requirementsPath := dockerServicePath ++ "/" ++ requirementsPath in
      let args := app args [upath_normalize w requirementsPath] in
      out <- runProcess cmd args ;;
      ret (Some out).

(** [checkDocker()] *)
Definition checkDocker : M unit :=
  out <- runProcess "docker"
           ["version"; "-f";
            "Server Version {{.Server.Version}} & Client Version {{.Client.Version}}"] ;;
  log ("Using Docker " ++ out).

(** The callback of [autoconfigArtifacts] on one entry of
    [sls.service.functions]. *)
Definition autoconfigArtifact (func_config : FunctionConfig) : Result FunctionConfig :=
  let autoArtifact := buildDir pluginConfig ++ "/" ++ template (fn_name func_config) ++ ".zip" in
  match fn_package func_config with
  | None => Throw (TypeError "Cannot read properties of undefined")
  | Some pkg =>
      Ok {| fn_name := fn_name func_config;
            fn_package := Some {| artifact := Some (orString (artifact pkg) autoArtifact) |} |}
  end.

Fixpoint autoconfigEach (fs : list (string * FunctionConfig))
  : Result unit * list (string * FunctionConfig) :=
  match fs with
  | [] => (Ok tt, [])
  | (func_name, func_config) :: rest =>
      match autoconfigArtifact func_config with
      | Throw e => (Throw e, fs)
      | Ok func_config' =>
          let (r, rest') := autoconfigEach rest in
          (r, (func_name, func_config') :: rest')
      end
  end.

(** [autoconfigArtifacts()] *)
Definition autoconfigArtifacts : M unit :=
  fun s =>
    let (r, fs) := autoconfigEach (functions s) in
    (r, {| trace := trace s; pending := pending s; functions := fs |}).

(** [setupContainer()] *)
Definition setupContainer : M unit :=
  out <- runProcess "docker"
           ["ps"; "-a"; "--filter"; "name=" ++ containerName pluginConfig;
            "--format"; "{{.Names}}"] ;;
  let out := trim out in
  (if String.eqb out (containerName pluginConfig) then
     (log "Container already exists. Killing it and reusing." ;;
      out <- runProcess "docker" ["kill"; containerName pluginConfig] ;;
      log out)
   else ret tt) ;;
  let args := ["run"; "--rm"; "-dt"; "-v"; cwd w ++ ":" ++ dockerServicePath] in
  let args := app args (flat_map (fun envVar => ["-e"; envVar]) (dockerEnvs pluginConfig)) in
  let args :=
    if mountSSH pluginConfig
    then app args ["-v"; template (env_HOME w) ++ "/.ssh:/root/.ssh"]
    else args in
  let args :=
    app args ["--name"; containerName pluginConfig; dockerImage pluginConfig; "bash"] in
  runProcess "docker" args ;;
  log "Container created".

(** [ensureImage()] *)
Definition ensureImage : M unit :=
  out <- runProcess "docker"
           ["images"; "--format"; "{{.Repository}}:{{.Tag}}"; "--filter";
            "reference=" ++ dockerImage pluginConfig] ;;
  let out := trim out in
  if negb (String.eqb out (dockerImage pluginConfig)) then
    (log ("Docker Image " ++ dockerImage pluginConfig
          ++ " is not already installed on your system. Downloading. This might take a while. Subsequent deploys will be faster...") ;;
     runProcess "docker" ["pull"; dockerImage pluginConfig] ;;
     ret tt)
  else ret tt.

(** [setupDocker()] *)
Definition setupDocker : M unit :=
  log "Packaging using Docker container..." ;;
  checkDocker ;;
  ensureImage ;;
  log ("Creating Docker container " ++ char DQUOTE ++ containerName pluginConfig
       ++ char DQUOTE ++ "...") ;;
  setupContainer ;;
  log "Docker setup completed".

(** [Path.join(dir, name)]: a [TypeError] when [name] is [undefined]. *)
Definition pathJoin (dir : string) (name_ : option string) : M string :=
  match name_ with
  | Some n => ret (path_join w dir n)
  | None => throw (TypeError "The path argument must be of type string")
  end.

(** The callback of [includes.forEach] in [makePackage]. *)
Definition copyInclude (buildPath item : string) : M unit :=
  present <- existsSync item ;;
  if present then fsSync (EvCopySync item buildPath) else ret tt.

(** The callback of [requirementsFiles.forEach] in [makePackage]. *)
Definition installIfExists (buildPath req : string) : M unit :=
  present <- existsSync req ;;
  if present then (installRequirements buildPath req ;; ret tt) else ret tt.

(** [makePackage(target)] *)
Definition makePackage (target : Target) : M unit :=
  log ("Packaging " ++ template (name target) ++ "...") ;;
  buildPath <- pathJoin (buildDir pluginConfig) (name target) ;;
  let requirementsPath := path_join w buildPath (requirementsFile pluginConfig) in
  fsSync (EvEnsureDirSync buildPath) ;;
  let includes := orList (includes_ target) [] in
  let includes := app includes (globalIncludes pluginConfig) in
  forEach (copyInclude buildPath) includes ;;
  let requirementsFiles := [requirementsPath] in
  let requirementsFiles := app requirementsFiles (globalRequirements pluginConfig) in
  forEach (installIfExists buildPath) requirementsFiles ;;
  fsSync (EvZip buildPath (buildPath ++ ".zip")).

(** The hook ["before:package:createDeploymentArtifacts"]. *)
Definition beforePackage : M (list unit) :=
  autoconfigArtifacts ;;
  emit (EvEnsureDir (buildDir pluginConfig)) ;;
  setupDocker ;;
  mapM makePackage selectAll.

(** The hook ["after:deploy:deploy"]. *)
Definition afterDeploy : M bool := clean.

End DependencyLayerPackager.

(** A hook runs to its end, then the handlers of rejected promises run. *)
Definition runHook {A} (hook : M A) (s : State) : Result A * State :=
  let (r, s') := hook s in (r, settle s').

Definition initialState (fs : list (string * FunctionConfig)) : State :=
  {| trace := []; pending := []; functions := fs |}.

(** [new DependencyLayerPackager(sls, options)] followed by one of the
    two hooks: the constructor resolves the configuration and may throw. *)
Definition packageService (sls : Serverless) (w : World) (s : State)
  : Result (list unit) * State :=
  match getPluginConfig sls with
  | Throw e => (Throw e, s)
  | Ok pluginConfig => runHook (beforePackage sls w pluginConfig) s
  end.

Definition cleanService (sls : Serverless) (w : World) (s : State)
  : Result bool * State :=
  match getPluginConfig sls with
  | Throw e => (Throw e, s)
  | Ok pluginConfig => runHook (afterDeploy w pluginConfig) s
  end.

(** ** The classification of a diagnostic text

    The four branches of the conditional in [runProcess], named as in the
    comments of the source: the false positive of [pip] cloning a
    repository, a warning, an error of Docker, and anything else. *)

Inductive Classification : Type :=
| IgnoreFalsePositive
| IgnoreWarning
| Fatal
| Ambiguous.

Definition classify (errorText : string) : Classification :=
  let countErrorNewLines := List.length (split LF errorText) in
  if negb (includes errorText "ERROR:")
     && (countErrorNewLines <? 2)%nat
     && includes (toLowerCase errorText) "git clone"
  then IgnoreFalsePositive
  else if includes (toLowerCase errorText) "warning"
          && negb (includes (toLowerCase errorText) "error")
  then IgnoreWarning
  else if includes (toLowerCase errorText) "docker"
  then Fatal
  else Ambiguous.

(** The words of the specification. *)

(** [text] contains [phrase], letter case ignored. *)
Definition containsIgnoreCase (text phrase : string) : Prop :=
  includes (toLowerCase text) (toLowerCase phrase) = true.

(** The number of lines of [text]. *)
Definition lineCount (text : string) : nat := List.length (split LF text).

(** Rule 1: fewer than two lines, no marker [ERROR:], the phrase
    [git clone]. *)
Definition FalsePositiveRule (text : string) : Prop :=
  (lineCount text < 2)%nat
  /\ includes text "ERROR:" = false
  /\ containsIgnoreCase text "git clone".

(** Rule 2: the word [warning] and not the word [error]. *)
Definition WarningRule (text : string) : Prop :=
  containsIgnoreCase text "warning" /\ ~ containsIgnoreCase text "error".

(** Appending events to the trace of a state. *)
Definition after (s : State) (evs : list event) : State :=
  {| trace := (trace s ++ evs)%list; pending := pending s; functions := functions s |}.

(** ** Concrete worlds, for running the plugin on examples *)

Module Scenario.

(** A process that exits with [status] and has written [out] and [err]. *)
Definition exited (status : Z) (out err : string) : SpawnSyncReturns :=
  {| spawn_error := None; spawn_status := Some status;
     spawn_stdout := out; spawn_stderr := err |}.

(** A world whose answers do not depend on the history: [run] executes
    the commands, the operator always types [answer], the paths in
    [present] exist with the size [size] gives, no file operation fails. *)
Definition world (run : string -> list string -> SpawnSyncReturns) (answer : string)
    (present : string -> bool) (size : string -> Z) : World :=
  {| spawnSync := fun _ cmd args => run cmd args;
     question := fun _ _ => answer;
     pathExists := fun _ p => present p;
     statSize := fun _ p => size p;
     fsThrows := fun _ _ => None;
     removeRejects := fun _ _ => None;
     cwd := "/work";
     env_HOME := Some "/home/dev";
     path_join := fun a b => a ++ "/" ++ b;
     upath_normalize := fun p => p |}.

Definition nothingExists (p : string) : bool := false.
Definition noSize (p : string) : Z := 0%Z.



Definition pipExec : list string :=
  ["exec"; "dependency_layer_packager"; "pip"; "install"; "--upgrade"; "-t";
   "build/api"; "-r"; "/var/task/build/api/requirements.txt"].

Definition start : State := initialState [].

(** The Docker daemon is not running. *)
Definition dockerDown : World :=
  world (fun _ _ => exited 1 ""
                      ("Cannot connect to the Docker daemon at unix:///var/run/docker.sock. "
                       ++ "Is the docker daemon running?" ++ char LF))
        "" nothingExists noSize.

(** [pip] cannot resolve a requirement; the operator types [answer]. *)
Definition pipFails (answer : string) : World :=
  world (fun _ _ => exited 1 "Collecting nosuchpackage"
                      ("ERROR: No matching distribution found for nosuchpackage"
                       ++ char LF))
        answer nothingExists noSize.

(** Every command succeeds silently, whatever its exit code. *)
Definition silent (status : Z) : World :=
  world (fun _ _ => exited status "done" "") "" nothingExists noSize.


(** Two layers are packaged; [pip] fails on each and the operator types
    [answer] at every prompt. *)
Definition twoLayers : Serverless :=
  {| custom := Some {| dependencyLayer := Some
       {| raw_playbooksFolder := None; raw_requirementsFile := None;
          raw_globalRequirements := Some ["requirements.txt"]; raw_globalIncludes := None;
          raw_buildDir := Some "build"; raw_containerName := None;
          raw_cleanup := Some true; raw_dockerEnvs := None; raw_mountSSH := None;
          raw_dockerImage := None; raw_abortOnPackagingErrors := None |} |};
     provider_runtime := Some "python3.8";
     layers :=
       [("api", {| layer_path := Some "layers/api"; layer_compatibleRuntimes := None;
                   layer_compatibleArchitectures := None; layer_name := Some "api";
                   layer_includes := None |});
        ("jobs", {| layer_path := Some "layers/jobs"; layer_compatibleRuntimes := None;
                    layer_compatibleArchitectures := None; layer_name := Some "jobs";
                    layer_includes := None |})] |}.

(** Docker answers its queries silently; only [docker exec ... pip] writes
    an error. *)
Definition pipFailsInDocker (answer : string) : World :=
  world (fun _ args =>
           match args with
           | "exec" :: _ =>
               exited 1 "Collecting nosuchpackage"
                 ("ERROR: No matching distribution found for nosuchpackage" ++ char LF)
           | _ => exited 0 "" ""
           end)
        answer (fun p => String.eqb p "requirements.txt") (fun _ => 24%Z).

(** The configuration that [getPluginConfig] resolves for [twoLayers]. *)
Definition config : DependencyLayerConfig :=
  {| playbooksFolder := None; requirementsFile := "requirements.txt";
     globalRequirements := ["requirements.txt"]; globalIncludes := ["./common_files"];
     buildDir := "build"; containerName := "dependency_layer_packager";
     cleanup := Some true; dockerEnvs := []; mountSSH := false;
     dockerImage := "lambci/lambda:build-python3.8"; abortOnPackagingErrors := true;
     config_dockerServicePath := "/var/task" |}.

(** The manifest of the layer [api] exists and has [size] bytes; every
    command succeeds silently. *)
Definition manifest (size : Z) : World :=
  world (fun _ _ => exited 0 "Successfully installed" "") ""
        (fun p => String.eqb p "build/api/requirements.txt") (fun _ => size).


(** The build directory cannot be removed; [docker stop] succeeds
    silently. *)
Definition removalFails : World :=
  {| spawnSync := fun _ _ _ => exited 0 "dependency_layer_packager" "";
     question := fun _ _ => "";
     pathExists := fun _ _ => false;
     statSize := fun _ _ => 0%Z;
     fsThrows := fun _ _ => None;
     removeRejects := fun _ _ => Some "Error: EBUSY: resource busy or locked, rmdir 'build'";
     cwd := "/work";
     env_HOME := Some "/home/dev";
     path_join := fun a b => a ++ "/" ++ b;
     upath_normalize := fun p => p |}.

(** One layer that declares the include path [./common]. *)
Definition layerWithIncludes : Serverless :=
  {| custom := custom twoLayers;
     provider_runtime := Some "python3.8";
     layers :=
       [("api", {| layer_path := Some "layers/api"; layer_compatibleRuntimes := None;
                   layer_compatibleArchitectures := None; layer_name := Some "api";
                   layer_includes := Some ["./common"] |})] |}.

(** The directories [./common] and [./common_files] exist; every command
    succeeds silently. *)
Definition commonExists : World :=
  world (fun _ _ => exited 0 "" "") ""
        (fun p => String.eqb p "./common" || String.eqb p "./common_files") noSize.

(** What [makePackage] may receive: a target that carries include paths. *)
Definition apiTarget : Target :=
  {| path := Some "layers/api"; compatibleRuntimes := None;
     compatibleArchitectures := None; name := Some "api";
     includes_ := Some ["./common"; "./missing"] |}.


(** A configuration that sets [buildDir] and nothing else, and one whose
    strings and lists are all given as empty. *)
Definition onlyBuildDir : RawConfig :=
  {| raw_playbooksFolder := None; raw_requirementsFile := None;
     raw_globalRequirements := None; raw_globalIncludes := None;
     raw_buildDir := Some "build"; raw_containerName := None; raw_cleanup := None;
     raw_dockerEnvs := None; raw_mountSSH := None; raw_dockerImage := None;
     raw_abortOnPackagingErrors := None |}.

Definition allEmpty : RawConfig :=
  {| raw_playbooksFolder := Some ""; raw_requirementsFile := Some "";
     raw_globalRequirements := Some []; raw_globalIncludes := Some [];
     raw_buildDir := Some "build"; raw_containerName := Some ""; raw_cleanup := None;
     raw_dockerEnvs := Some []; raw_mountSSH := None; raw_dockerImage := Some "";
     raw_abortOnPackagingErrors := None |}.

(** [docker images] lists [listing]; the other commands succeed silently. *)
Definition images (listing : string) : World :=
  world (fun _ args =>
           match args with
           | "images" :: _ => exited 0 listing ""
           | _ => exited 0 "" ""
           end)
        "" nothingExists noSize.

(** The [docker] binary cannot be launched. *)
Definition noDocker : World :=
  world (fun _ _ => {| spawn_error := Some "spawnSync docker ENOENT"; spawn_status := None;
                       spawn_stdout := ""; spawn_stderr := "" |})
        "" nothingExists noSize.

(** The functions of a service: [hello] names its artifact, [resize] does
    not, [broken] has no [package] property at all. *)
Definition hello : FunctionConfig :=
  {| fn_name := Some "svc-dev-hello";
     fn_package := Some {| artifact := Some "dist/hello.zip" |} |}.

Definition resize : FunctionConfig :=
  {| fn_name := Some "svc-dev-resize"; fn_package := Some {| artifact := None |} |}.

Definition broken : FunctionConfig :=
  {| fn_name := Some "svc-dev-broken"; fn_package := None |}.

(** The container exists but [docker kill] cannot be launched any more. *)
Definition killFails : World :=
  world (fun _ args =>
           match args with
           | "ps" :: _ => exited 0 "dependency_layer_packager" ""
           | "kill" :: _ =>
               {| spawn_error := Some "spawnSync docker EAGAIN"; spawn_status := None;
                  spawn_stdout := ""; spawn_stderr := "" |}
           | _ => exited 0 "" ""
           end)
        "" nothingExists noSize.

(** Docker answers the version probe and then reports that its daemon is
    down. *)
Definition daemonStops : World :=
  world (fun _ args =>
           match args with
           | "version" :: _ => exited 0 "Server Version 20.10 & Client Version 20.10" ""
           | _ => exited 1 "" "Cannot connect to the Docker daemon"
           end)
        "" nothingExists noSize.

(** [pip] clones a repository; a no-break space and a line feed come
    before its message. *)
Definition pipClonesAfterBlank : World :=
  world (fun _ _ => exited 0 "Successfully installed"
                      (utf8_2 "194" "160" ++ char LF
                       ++ "Running command git clone -q https://example.org/dep.git"
                       ++ char LF))
        "" nothingExists noSize.

(** Docker reports an error and spells its name with the Kelvin sign. *)
Definition kelvinDocker : World :=
  world (fun _ _ => exited 1 "" ("DOC" ++ KELVIN_SIGN ++ "ER daemon is not running" ++ char LF))
        "" nothingExists noSize.

(** A diagnostic of one line between two line feeds. *)
Definition gitCloneFailedText : string :=
  char LF ++ "docker: git clone failed" ++ char LF.

Definition gitCloneFailed : World :=
  world (fun _ _ => exited 1 "" gitCloneFailedText) "" nothingExists noSize.


End Scenario.

(** A byte that no trimming removes: a character of ASCII that is not
    white space. *)
Definition isSolid (c : ascii) : bool :=
  negb (isWhiteSpace c) && (nat_of_ascii c <? 128)%nat.

(** [n] is empty or its last byte is solid. *)
Fixpoint solidEnd (n : string) : bool :=
  match n with
  | EmptyString => true
  | String c EmptyString => isSolid c
  | String _ n' => solidEnd n'
  end.

(** Every byte of [s] is one that trimming may remove: it is not solid. *)
Fixpoint allStrippable (s : string) : bool :=
  match s with
  | EmptyString => true
  | String c s' => negb (isSolid c) && allStrippable s'
  end.

(** A sequence of white space characters. *)
Inductive WhiteSpaces : string -> Prop :=
| WhiteSpaces_nil : WhiteSpaces EmptyString
| WhiteSpaces_cons t s :
    isWhiteSpaceChar t = true -> WhiteSpaces s -> WhiteSpaces (t ++ s).

(** The same world, with the exit status of every process replaced. *)
Definition withStatus (status : list event -> string -> list string -> option Z)
    (w : World) : World :=
  {| spawnSync := fun h cmd args =>
       let r := spawnSync w h cmd args in
       {| spawn_error := spawn_error r; spawn_status := status h cmd args;
          spawn_stdout := spawn_stdout r; spawn_stderr := spawn_stderr r |};
     question := question w;
     pathExists := pathExists w;
     statSize := statSize w;
     fsThrows := fsThrows w;
     removeRejects := removeRejects w;
     cwd := cwd w;
     env_HOME := env_HOME w;
     path_join := path_join w;
     upath_normalize := upath_normalize w |}.

(** [input] has the letter y, small or capital, at some position. *)
Definition containsLetterY (input : string) : Prop :=
  exists i, get i input = Some "y"%char \/ get i input = Some "Y"%char.

(** The line that the confirmation gate prints when the operator declines. *)
Definition abortEvent : event := EvConsoleLog ["ABORTING DEPLOYMENT"].

(** If the operator declined among the new events [evs], the computation
    has thrown the abort error and nothing has happened afterwards. *)
Definition abortIsFinal {A} (evs : list event) (r : Result A) : Prop :=
  In abortEvent evs ->
  r = Throw (pluginError "Aborting") /\ exists evs', evs = (evs' ++ [abortEvent])%list.

Definition AbortStops {A} (m : M A) : Prop :=
  forall s, exists evs,
    trace (snd (m s)) = (trace s ++ evs)%list /\ abortIsFinal evs (fst (m s)).

(** The processes launched among [evs], in order. *)
Definition isSpawn (e : event) : bool :=
  match e with EvSpawnSync _ _ => true | _ => false end.

Definition spawned (evs : list event) : list event := filter isSpawn evs.

(** The files copied among [evs], in order. *)
Definition isCopy (e : event) : bool :=
  match e with EvCopySync _ _ => true | _ => false end.

Definition copied (evs : list event) : list event := filter isCopy evs.

(** The value of the option [buildDir] as the service configures it. *)
Definition configuredBuildDir (sls : Serverless) : option string :=
  match custom sls with
  | Some c =>
      match dependencyLayer c with
      | Some raw => raw_buildDir raw
      | None => None
      end
  | None => None
  end.

(** The service with [raw] as the configuration of the plugin. *)
Definition configure (raw : RawConfig) (sls : Serverless) : Serverless :=
  {| custom := Some {| dependencyLayer := Some raw |};
     provider_runtime := provider_runtime sls;
     layers := layers sls |}.

(** [raw] with the option [abortOnPackagingErrors] set to [v]
    ([None]: the option is left out). *)
Definition setAbortOnPackagingErrors (v : option bool) (raw : RawConfig) : RawConfig :=
  {| raw_playbooksFolder := raw_playbooksFolder raw;
     raw_requirementsFile := raw_requirementsFile raw;
     raw_globalRequirements := raw_globalRequirements raw;
     raw_globalIncludes := raw_globalIncludes raw;
     raw_buildDir := raw_buildDir raw;
     raw_containerName := raw_containerName raw;
     raw_cleanup := raw_cleanup raw;
     raw_dockerEnvs := raw_dockerEnvs raw;
     raw_mountSSH := raw_mountSSH raw;
     raw_dockerImage := raw_dockerImage raw;
     raw_abortOnPackagingErrors := v |}.

(** The resolved configuration with another value of the property
    [abortOnPackagingErrors]. *)
Definition withAbortOnPackagingErrors (b : bool) (cfg : DependencyLayerConfig)
  : DependencyLayerConfig :=
  {| playbooksFolder := playbooksFolder cfg;
     requirementsFile := requirementsFile cfg;
     globalRequirements := globalRequirements cfg;
     globalIncludes := globalIncludes cfg;
     buildDir := buildDir cfg;
     containerName := containerName cfg;
     cleanup := cleanup cfg;
     dockerEnvs := dockerEnvs cfg;
     mountSSH := mountSSH cfg;
     dockerImage := dockerImage cfg;
     abortOnPackagingErrors := b;
     config_dockerServicePath := config_dockerServicePath cfg |}.

(** The include paths that the layers of the service declare. *)
Definition declaredIncludes (layer : Layer) : list string :=
  orList (layer_includes layer) [].

(** ** Predicates on what a method does *)

(** Every event that [m] adds to the trace satisfies [P]. *)
Definition Emits {A} (P : event -> Prop) (m : M A) : Prop :=
  forall s, exists evs,
    trace (snd (m s)) = (trace s ++ evs)%list /\ Forall P evs.

(** A launched process is a [docker] command. *)
Definition dockerOnly (e : event) : Prop :=
  match e with
  | EvSpawnSync cmd _ => cmd = "docker"
  | _ => True
  end.

(** A file operation works on the directory [buildPath]: it creates it,
    copies into it, or zips it to [buildPath.zip]; nothing is removed. *)
Definition confinedTo (buildPath : string) (e : event) : Prop :=
  match e with
  | EvEnsureDirSync dir => dir = buildPath
  | EvCopySync _ dest => dest = buildPath
  | EvZip dir archive => dir = buildPath /\ archive = buildPath ++ ".zip"
  | EvRemove _ => False
  | EvEnsureDir _ => False
  | _ => True
  end.

(** The questions put to the operator among [evs], in order. *)
Definition isQuestion (e : event) : bool :=
  match e with EvQuestion _ => true | _ => false end.

Definition asked (evs : list event) : list event := filter isQuestion evs.

(** The archives written among [evs], in order. *)
Definition isZip (e : event) : bool :=
  match e with EvZip _ _ => true | _ => false end.

Definition zipped (evs : list event) : list event := filter isZip evs.


(** What cleaning may do: remove [dir], stop the container [container_]
    at once, and print messages. *)
Definition cleansOnly (dir container_ : string) (e : event) : Prop :=
  match e with
  | EvRemove d => d = dir
  | EvSpawnSync cmd args => cmd = "docker" /\ args = ["stop"; container_; "-t"; "0"]
  | EvCliLog _ => True
  | EvConsoleLog _ => True
  | EvQuestion _ => True
  | _ => False
  end.

(** The configuration object as [getPluginConfig] leaves it: the method
    writes the resolved values into the object that it has read, so that a
    later resolution reads them as options. *)
Definition resolvedObject (cfg : DependencyLayerConfig) : RawConfig :=
  {| raw_playbooksFolder := playbooksFolder cfg;
     raw_requirementsFile := Some (requirementsFile cfg);
     raw_globalRequirements := Some (globalRequirements cfg);
     raw_globalIncludes := Some (globalIncludes cfg);
     raw_buildDir := Some (buildDir cfg);
     raw_containerName := Some (containerName cfg);
     raw_cleanup := cleanup cfg;
     raw_dockerEnvs := Some (dockerEnvs cfg);
     raw_mountSSH := Some (mountSSH cfg);
     raw_dockerImage := Some (dockerImage cfg);
     raw_abortOnPackagingErrors := Some (abortOnPackagingErrors cfg) |}.

(** How [autoconfigArtifacts] relates an entry of [sls.service.functions]
    before and after: same key, same name, and the artifact that was
    configured or else [buildDir/name.zip]. *)
Definition artifactConfigured (cfg : DependencyLayerConfig)
    (old new : string * FunctionConfig) : Prop :=
  fst new = fst old
  /\ fn_name (snd new) = fn_name (snd old)
  /\ exists pkg,
       fn_package (snd old) = Some pkg
       /\ fn_package (snd new)
          = Some {| artifact :=
                      Some (orString (artifact pkg)
                              (buildDir cfg ++ "/" ++ template (fn_name (snd old))
                               ++ ".zip")) |}.

(** An event that writes no archive. *)
Definition notZip (e : event) : Prop := isZip e = false.

(** Whenever [m] returns a value [a], the archives that it has written
    satisfy [Q] together with [a]. *)
Definition ZipsWhenOk {A} (Q : list event -> A -> Prop) (m : M A) : Prop :=
  forall s a s', m s = (Ok a, s') ->
    exists evs, trace s' = (trace s ++ evs)%list /\ Q (zipped evs) a.

(** The archive of the layer called [n]. *)
Definition archiveOf (w : World) (cfg : DependencyLayerConfig) (n : string) : event :=
  EvZip (path_join w (buildDir cfg) n) (path_join w (buildDir cfg) n ++ ".zip").

(** A process launched while the layer in [buildPath] is packaged installs
    one of the [manifests] into [buildPath], inside the container. *)
Definition installsInto (w : World) (cfg : DependencyLayerConfig) (buildPath : string)
    (manifests : list string) (e : event) : Prop :=
  match e with
  | EvSpawnSync cmd args =>
      cmd = "docker"
      /\ exists req,
           In req manifests
           /\ args = ["exec"; containerName cfg; "pip"; "install"; "--upgrade"; "-t";
                      upath_normalize w buildPath; "-r";
                      upath_normalize w ("/var/task/" ++ req)]
  | _ => True
  end.

(** An event that is no file operation: no directory is created, nothing
    is copied, zipped or removed. *)
Definition noFileOperation (e : event) : Prop :=
  match e with
  | EvEnsureDir _ => False
  | EvEnsureDirSync _ => False
  | EvCopySync _ _ => False
  | EvZip _ _ => False
  | EvRemove _ => False
  | _ => True
  end.

(** [s] starts with one of the two characters that [toLowerCase] rewrites. *)
Definition startsSpecial (s : string) : bool :=
  prefix KELVIN_SIGN s || prefix CAPITAL_I_DOT s.

(** [s] does not start with a byte that could complete such a character
    begun before it. *)
Definition freshStart (s : string) : bool :=
  match s with
  | EmptyString => true
  | String c _ =>
      negb (Ascii.eqb c "132") && negb (Ascii.eqb c "170") && negb (Ascii.eqb c "176")
  end.

(** Every byte of [s] is a character of ASCII. *)
Fixpoint asciiOnly (s : string) : bool :=
  match s with
  | EmptyString => true
  | String c s' => (nat_of_ascii c <? 128)%nat && asciiOnly s'
  end.


(** * Properties *)

(** ** The string primitives on examples *)

Example toLowerCase_ex : toLowerCase "Git CLONE z@[`{" = "git clone z@[`{".
Proof. reflexivity. Qed.

Example trim_ex : trim (char LF ++ "  a b " ++ char LF) = "a b".
Proof. reflexivity. Qed.

Example trim_unicode_ex :
  trim (utf8_2 "194" "160" ++ char LF ++ " git clone x" ++ utf8_3 "239" "187" "191"
        ++ utf8_3 "226" "128" "168")
  = "git clone x".
Proof. reflexivity. Qed.

Example toLowerCase_unicode_ex :
  toLowerCase ("DOC" ++ KELVIN_SIGN ++ "ER W" ++ CAPITAL_I_DOT ++ "N")
  = "docker w" ++ SMALL_I_DOT ++ "n".
Proof. reflexivity. Qed.

Example split_ex : split LF ("a" ++ char LF ++ char LF ++ "b") = ["a"; ""; "b"].
Proof. reflexivity. Qed.

Example includes_ex : includes "xx git clone" "git clone" = true /\ includes "" "" = true
                      /\ includes "abc" "ac" = false.
Proof. repeat split; reflexivity. Qed.

(** ** Prefixes and substrings *)

Lemma prefix_nil_r n : n <> "" -> prefix n "" = false.
Proof. destruct n; [congruence | reflexivity]. Qed.

Lemma prefix_nil_l s : prefix "" s = true.
Proof. destruct s; reflexivity. Qed.

Lemma prefix_cons c d n s :
  prefix (String c n) (String d s) = Ascii.eqb c d && prefix n s.
Proof.
  simpl. destruct (ascii_dec c d) as [->|Hne].
  - rewrite Ascii.eqb_refl. reflexivity.
  - apply Ascii.eqb_neq in Hne. rewrite Hne. reflexivity.
Qed.

Lemma prefix_split p : forall s, prefix p s = true -> exists r, s = p ++ r.
Proof.
  induction p as [|c p IH]; intros s H.
  - exists s. reflexivity.
  - destruct s as [|d s]; [discriminate H|].
    rewrite prefix_cons in H. apply andb_true_iff in H. destruct H as [Hc Hp].
    apply Ascii.eqb_eq in Hc. subst d. destruct (IH s Hp) as [r ->].
    exists r. reflexivity.
Qed.


Lemma includes_cons d s n :
  includes (String d s) n = prefix n (String d s) || includes s n.
Proof. cbn [includes]. destruct (prefix n (String d s)); reflexivity. Qed.

Lemma includes_nil n : includes "" n = prefix n "".
Proof. cbn [includes]. destruct (prefix n ""); reflexivity. Qed.

Lemma includes_skip c d s n :
  Ascii.eqb c d = false -> includes (String d s) (String c n) = includes s (String c n).
Proof. intros H. rewrite includes_cons, prefix_cons, H. reflexivity. Qed.

Lemma includes_app_front pre x n : includes x n = true -> includes (pre ++ x) n = true.
Proof.
  intros H. induction pre as [|d pre IH]; [exact H|].
  simpl append. rewrite includes_cons, IH. apply orb_true_r.
Qed.


(** ** Bytes that trimming removes and bytes that it keeps *)

Lemma isSolid_not_strippable c d :
  isSolid c = true -> isSolid d = false -> Ascii.eqb c d = false.
Proof.
  intros Hc Hd. destruct (Ascii.eqb c d) eqn:E; [|reflexivity].
  apply Ascii.eqb_eq in E. congruence.
Qed.

Lemma solidEnd_tail c n : solidEnd (String c n) = true -> solidEnd n = true.
Proof. destruct n; [reflexivity | intros H; exact H]. Qed.

Lemma includes_strip_front pre s c n :
  allStrippable pre = true -> isSolid c = true ->
  includes (pre ++ s) (String c n) = includes s (String c n).
Proof.
  intros Hpre Hc. induction pre as [|d pre IH]; [reflexivity|].
  simpl in Hpre. apply andb_true_iff in Hpre. destruct Hpre as [Hd Hpre].
  apply negb_true_iff in Hd.
  simpl append. rewrite (includes_skip _ _ _ _ (isSolid_not_strippable _ _ Hc Hd)).
  apply IH. exact Hpre.
Qed.

Lemma prefix_strippable n : forall p,
  n <> "" -> solidEnd n = true -> allStrippable p = true -> prefix n p = false.
Proof.
  induction n as [|c n IH]; intros p Hne Hn Hp; [congruence|].
  destruct p as [|d p]; [reflexivity|].
  simpl in Hp. apply andb_true_iff in Hp. destruct Hp as [Hd Hp].
  apply negb_true_iff in Hd. rewrite prefix_cons.
  destruct n as [|c' n'].
  - simpl in Hn. rewrite (isSolid_not_strippable _ _ Hn Hd). reflexivity.
  - rewrite (IH p) by (assumption || discriminate). apply andb_false_r.
Qed.

Lemma includes_strippable n p :
  n <> "" -> solidEnd n = true -> allStrippable p = true -> includes p n = false.
Proof.
  intros Hne Hn. induction p as [|d p IH]; intros Hp.
  - rewrite includes_nil. apply prefix_nil_r. exact Hne.
  - rewrite includes_cons, (prefix_strippable n (String d p)) by assumption.
    simpl in Hp. apply andb_true_iff in Hp. destruct Hp as [_ Hp].
    apply IH. exact Hp.
Qed.

Lemma prefix_app_strippable post y : forall n,
  solidEnd n = true -> allStrippable post = true -> prefix n (y ++ post) = prefix n y.
Proof.
  induction y as [|d y IH]; intros n Hn Hpost.
  - destruct n as [|c n]; [simpl; apply prefix_nil_l|].
    simpl append. rewrite (prefix_strippable (String c n) post) by (assumption || discriminate).
    reflexivity.
  - destruct n as [|c n]; [reflexivity|].
    simpl append. rewrite !prefix_cons, (IH n (solidEnd_tail _ _ Hn) Hpost). reflexivity.
Qed.

Lemma includes_strip_back y post n :
  n <> "" -> solidEnd n = true -> allStrippable post = true ->
  includes (y ++ post) n = includes y n.
Proof.
  intros Hne Hn Hpost. induction y as [|d y IH].
  - simpl append. rewrite (includes_strippable n post), includes_nil by assumption.
    symmetry. apply prefix_nil_r. exact Hne.
  - pose proof (prefix_app_strippable post (String d y) n Hn Hpost) as Hp.
    simpl append in *. rewrite !includes_cons, IH, Hp. reflexivity.
Qed.

(** ** White space *)

Lemma whiteSpace_cases t : isWhiteSpaceChar t = true -> In t whiteSpace.
Proof.
  unfold isWhiteSpaceChar. intros H. apply existsb_exists in H.
  destruct H as (u & Hin & Heq). apply String.eqb_eq in Heq. subst u. exact Hin.
Qed.

(** Go through the white space characters one by one. *)
Ltac each_white_space H :=
  apply whiteSpace_cases in H; unfold whiteSpace in H; simpl In in H;
  repeat (destruct H as [<-|H]); [..|contradiction H].

Lemma whiteSpace_strippable t : isWhiteSpaceChar t = true -> allStrippable t = true.
Proof. intros H. each_white_space H; reflexivity. Qed.

Lemma whiteSpace_freshStart t s : isWhiteSpaceChar t = true -> freshStart (t ++ s) = true.
Proof. intros H. each_white_space H; reflexivity. Qed.

Lemma allStrippable_app x y :
  allStrippable x = true -> allStrippable y = true -> allStrippable (x ++ y) = true.
Proof.
  intros Hx Hy. induction x as [|c x IH]; [exact Hy|].
  simpl in *. apply andb_true_iff in Hx. destruct Hx as [Hc Hx].
  rewrite Hc. apply IH. exact Hx.
Qed.

Lemma WhiteSpaces_strippable p : WhiteSpaces p -> allStrippable p = true.
Proof.
  induction 1 as [|t s Ht _ IH]; [reflexivity|].
  apply allStrippable_app; [apply whiteSpace_strippable; exact Ht | exact IH].
Qed.

Lemma WhiteSpaces_freshStart p : WhiteSpaces p -> freshStart p = true.
Proof.
  destruct 1 as [|t s Ht _]; [reflexivity|]. apply whiteSpace_freshStart. exact Ht.
Qed.

(** What trimming removes are white space characters at the two ends. *)
Lemma trimStart_within n : forall s,
  (String.length s <= n)%nat -> exists pre, WhiteSpaces pre /\ s = pre ++ trimStart s.
Proof.
  induction n as [|n IH]; intros s Hl.
  - destruct s; [|simpl in Hl; lia]. exists "". split; [constructor | reflexivity].
  - destruct s as [|c1 r1]; [exists ""; split; [constructor | reflexivity]|].
    simpl in Hl. cbn [trimStart]. destruct (isWhiteSpace c1) eqn:H1.
    { destruct (IH r1) as (pre & Hpre & Heq); [lia|].
      exists (char c1 ++ pre). split; [constructor; assumption|].
      simpl. f_equal. exact Heq. }
    destruct r1 as [|c2 r2]; [exists ""; split; [constructor | reflexivity]|].
    simpl in Hl. destruct (isWhiteSpaceChar (utf8_2 c1 c2)) eqn:H2.
    { destruct (IH r2) as (pre & Hpre & Heq); [lia|].
      exists (utf8_2 c1 c2 ++ pre). split; [constructor; assumption|].
      simpl. do 2 f_equal. exact Heq. }
    destruct r2 as [|c3 r3]; [exists ""; split; [constructor | reflexivity]|].
    simpl in Hl. destruct (isWhiteSpaceChar (utf8_3 c1 c2 c3)) eqn:H3.
    { destruct (IH r3) as (pre & Hpre & Heq); [lia|].
      exists (utf8_3 c1 c2 c3 ++ pre). split; [constructor; assumption|].
      simpl. do 3 f_equal. exact Heq. }
    exists "". split; [constructor | reflexivity].
Qed.

Lemma trimStart_decomp s : exists pre, WhiteSpaces pre /\ s = pre ++ trimStart s.
Proof. apply (trimStart_within (String.length s)). lia. Qed.

Lemma trimEnd_decomp s : exists post, WhiteSpaces post /\ s = trimEnd s ++ post.
Proof.
  induction s as [|c s (post & Hpost & Heq)].
  - exists "". split; [constructor | reflexivity].
  - cbn [trimEnd]. cbv zeta.
    destruct (isWhiteSpaceChar (String c (trimEnd s))) eqn:Hw.
    + exists (String c (trimEnd s) ++ post). split; [constructor; assumption|].
      simpl. f_equal. exact Heq.
    + exists post. split; [exact Hpost|]. simpl. f_equal. exact Heq.
Qed.

Lemma trim_decomp s :
  exists pre post, WhiteSpaces pre /\ WhiteSpaces post /\ s = pre ++ trim s ++ post.
Proof.
  destruct (trimStart_decomp s) as (pre & Hpre & Hs).
  destruct (trimEnd_decomp (trimStart s)) as (post & Hpost & Ht).
  exists pre, post. split; [exact Hpre|]. split; [exact Hpost|].
  unfold trim. rewrite <- Ht. exact Hs.
Qed.

(** A phrase that begins and ends with a solid byte occurs in the trimmed
    text exactly when it occurs in the text. *)
Lemma includes_trim s c n :
  isSolid c = true -> solidEnd (String c n) = true ->
  includes (trim s) (String c n) = includes s (String c n).
Proof.
  intros Hc Hn. destruct (trim_decomp s) as (pre & post & Hpre & Hpost & Hs).
  rewrite Hs at 2.
  rewrite (includes_strip_front pre _ c n (WhiteSpaces_strippable _ Hpre) Hc).
  rewrite includes_strip_back;
    [reflexivity | discriminate | exact Hn | apply WhiteSpaces_strippable; exact Hpost].
Qed.


(** ** Lower case *)

Lemma idot_test c1 c2 x :
  prefix CAPITAL_I_DOT (String c1 (String c2 x)) = String.eqb (utf8_2 c1 c2) CAPITAL_I_DOT.
Proof.
  unfold CAPITAL_I_DOT, utf8_2. rewrite !prefix_cons, prefix_nil_l. simpl String.eqb.
  rewrite (Ascii.eqb_sym c1), (Ascii.eqb_sym c2).
  destruct (Ascii.eqb "196" c1), (Ascii.eqb "176" c2); reflexivity.
Qed.

Lemma kelvin_test c1 c2 c3 x :
  prefix KELVIN_SIGN (String c1 (String c2 (String c3 x)))
  = String.eqb (utf8_3 c1 c2 c3) KELVIN_SIGN.
Proof.
  unfold KELVIN_SIGN, utf8_3. rewrite !prefix_cons, prefix_nil_l. simpl String.eqb.
  rewrite (Ascii.eqb_sym c1), (Ascii.eqb_sym c2), (Ascii.eqb_sym c3).
  destruct (Ascii.eqb "226" c1), (Ascii.eqb "132" c2), (Ascii.eqb "170" c3); reflexivity.
Qed.

Lemma toLowerCase_kelvin r : toLowerCase (KELVIN_SIGN ++ r) = String "k" (toLowerCase r).
Proof. reflexivity. Qed.

Lemma toLowerCase_idot r : toLowerCase (CAPITAL_I_DOT ++ r) = SMALL_I_DOT ++ toLowerCase r.
Proof. reflexivity. Qed.

Lemma toLowerCase_plain c r :
  startsSpecial (String c r) = false ->
  toLowerCase (String c r) = String (lowerChar c) (toLowerCase r).
Proof.
  unfold startsSpecial. intros H. apply orb_false_iff in H. destruct H as [Hk Hi].
  destruct r as [|c2 [|c3 r3]].
  - reflexivity.
  - rewrite idot_test in Hi. cbn [toLowerCase]. rewrite Hi. reflexivity.
  - rewrite idot_test in Hi. rewrite kelvin_test in Hk.
    cbn [toLowerCase]. rewrite Hi, Hk. reflexivity.
Qed.

(** Induction along the characters as [toLowerCase] reads them. *)
Lemma lower_cases (P : string -> Prop) :
  P "" ->
  (forall r, P r -> P (KELVIN_SIGN ++ r)) ->
  (forall r, P r -> P (CAPITAL_I_DOT ++ r)) ->
  (forall c r, startsSpecial (String c r) = false -> P r -> P (String c r)) ->
  forall s, P s.
Proof.
  intros Hnil Hk Hi Hp.
  assert (H : forall n s, (String.length s <= n)%nat -> P s).
  { induction n as [|n IH]; intros s Hl.
    - destruct s; [exact Hnil | simpl in Hl; lia].
    - destruct s as [|c r]; [exact Hnil|].
      destruct (startsSpecial (String c r)) eqn:E.
      + unfold startsSpecial in E. apply orb_true_iff in E. destruct E as [E|E];
          apply prefix_split in E; destruct E as [r' E]; rewrite E;
          [apply Hk | apply Hi]; apply IH;
          apply (f_equal String.length) in E; simpl in E, Hl; lia.
      + apply Hp; [exact E|]. apply IH. simpl in Hl. lia. }
  intros s. apply (H (String.length s)). lia.
Qed.

Lemma startsSpecial_app c r y :
  startsSpecial (String c r) = false -> freshStart y = true ->
  startsSpecial (String c (r ++ y)) = false.
Proof.
  unfold startsSpecial. intros H Hy.
  destruct r as [|c2 [|c3 r3]]; simpl append.
  - destruct y as [|p y']; [exact H|].
    unfold KELVIN_SIGN, CAPITAL_I_DOT, utf8_3, utf8_2. rewrite !prefix_cons.
    simpl in Hy. rewrite (Ascii.eqb_sym "132" p), (Ascii.eqb_sym "176" p).
    destruct (Ascii.eqb p "132"), (Ascii.eqb p "176"), (Ascii.eqb p "170");
      simpl in Hy; try discriminate Hy; rewrite !andb_false_r; reflexivity.
  - destruct y as [|p y']; [exact H|].
    rewrite idot_test in *. rewrite kelvin_test.
    apply orb_false_iff in H. destruct H as [_ Hi]. rewrite Hi, orb_false_r.
    unfold KELVIN_SIGN, utf8_3. simpl String.eqb.
    simpl in Hy.
    destruct (Ascii.eqb p "132"), (Ascii.eqb p "176"), (Ascii.eqb p "170");
      simpl in Hy; try discriminate Hy;
      destruct (Ascii.eqb c "226"), (Ascii.eqb c2 "132"); reflexivity.
  - rewrite idot_test, kelvin_test in *. exact H.
Qed.

(** Lower-casing goes through a concatenation whose second part cannot
    complete a character begun in the first. *)
Lemma toLowerCase_app y :
  freshStart y = true ->
  forall x, toLowerCase (x ++ y) = toLowerCase x ++ toLowerCase y.
Proof.
  intros Hy x. induction x as [|r IH|r IH|c r Hs IH] using lower_cases.
  - reflexivity.
  - change ((KELVIN_SIGN ++ r) ++ y) with (KELVIN_SIGN ++ (r ++ y)).
    rewrite !toLowerCase_kelvin, IH. reflexivity.
  - change ((CAPITAL_I_DOT ++ r) ++ y) with (CAPITAL_I_DOT ++ (r ++ y)).
    rewrite !toLowerCase_idot, IH. reflexivity.
  - change (String c r ++ y) with (String c (r ++ y)).
    rewrite (toLowerCase_plain c (r ++ y) (startsSpecial_app _ _ _ Hs Hy)).
    rewrite (toLowerCase_plain c r Hs), IH. reflexivity.
Qed.

(** White space is not changed by lower-casing, whatever follows it. *)
Lemma toLowerCase_whiteSpace t x :
  isWhiteSpaceChar t = true -> toLowerCase (t ++ x) = t ++ toLowerCase x.
Proof.
  intros H. each_white_space H; destruct x as [|a [|b [|c r]]]; reflexivity.
Qed.

Lemma toLowerCase_WhiteSpaces pre x :
  WhiteSpaces pre -> toLowerCase (pre ++ x) = pre ++ toLowerCase x.
Proof.
  induction 1 as [|t s Ht _ IH]; [reflexivity|].
  assert (Happ : forall a b c : string, (a ++ b) ++ c = a ++ (b ++ c)).
  { intros a b c. induction a as [|d a IHa]; [reflexivity|]. simpl. rewrite IHa. reflexivity. }
  rewrite !Happ, (toLowerCase_whiteSpace t (s ++ x) Ht), IH. reflexivity.
Qed.

Lemma append_nil_r (s : string) : s ++ "" = s.
Proof. induction s as [|c s IH]; [reflexivity|]. simpl. rewrite IH. reflexivity. Qed.

(** A phrase that begins and ends with a solid byte occurs in the lower
    case of the trimmed text exactly when it occurs in the lower case of the
    text. *)
Lemma includes_toLowerCase_trim s c n :
  isSolid c = true -> solidEnd (String c n) = true ->
  includes (toLowerCase (trim s)) (String c n) = includes (toLowerCase s) (String c n).
Proof.
  intros Hc Hn. destruct (trim_decomp s) as (pre & post & Hpre & Hpost & Hs).
  rewrite Hs at 2.
  rewrite (toLowerCase_WhiteSpaces pre _ Hpre).
  rewrite (toLowerCase_app post (WhiteSpaces_freshStart _ Hpost)).
  pose proof (toLowerCase_WhiteSpaces post "" Hpost) as Hl.
  rewrite append_nil_r in Hl. simpl in Hl. rewrite append_nil_r in Hl. rewrite Hl.
  rewrite (includes_strip_front pre _ c n (WhiteSpaces_strippable _ Hpre) Hc).
  rewrite includes_strip_back;
    [reflexivity | discriminate | exact Hn | apply WhiteSpaces_strippable; exact Hpost].
Qed.

(** The five substring tests of [runProcess] give the same answers on the
    captured stderr and on its trimmed form; only the count of lines is
    sensitive to the trimming. *)
Lemma substring_tests_ignore_trim (stderr_ : string) :
  let text := trim stderr_ in
  includes text "ERROR:" = includes stderr_ "ERROR:"
  /\ includes (toLowerCase text) "git clone" = includes (toLowerCase stderr_) "git clone"
  /\ includes (toLowerCase text) "warning" = includes (toLowerCase stderr_) "warning"
  /\ includes (toLowerCase text) "error" = includes (toLowerCase stderr_) "error"
  /\ includes (toLowerCase text) "docker" = includes (toLowerCase stderr_) "docker".
Proof.
  cbv zeta. split; [apply includes_trim; reflexivity|].
  repeat split; apply includes_toLowerCase_trim; reflexivity.
Qed.

(** ** The monad *)

Lemma bind_ok {A B} (m : M A) (k : A -> M B) s a s' :
  m s = (Ok a, s') -> bind m k s = k a s'.
Proof. intros H. unfold bind. rewrite H. reflexivity. Qed.

Lemma bind_throw {A B} (m : M A) (k : A -> M B) s e s' :
  m s = (Throw e, s') -> bind m k s = (Throw e, s').
Proof. intros H. unfold bind. rewrite H. reflexivity. Qed.

Lemma record_after s e : record e s = after s [e].
Proof. reflexivity. Qed.

Lemma after_after s evs evs' : after (after s evs) evs' = after s (evs ++ evs').
Proof. unfold after. simpl. rewrite <- app_assoc. reflexivity. Qed.

Lemma after_nil s : after s [] = s.
Proof. destruct s. unfold after. simpl. rewrite app_nil_r. reflexivity. Qed.

(** ** [runProcess] *)

(** The outcome of the confirmation gate, from the operator's answer. *)
Lemma requestUserConfirmation_eq w prompt yesText noText s :
  requestUserConfirmation w prompt yesText noText s =
  if includes (toLowerCase (question w (trace s) prompt)) "y"
  then (Ok tt, after s [EvQuestion prompt; EvConsoleLog [yesText]])
  else (Throw (pluginError "Aborting"),
        after s [EvQuestion prompt; EvConsoleLog [noText]]).
Proof.
  unfold requestUserConfirmation, bind, readLine, consoleLog, emit, error, throw.
  destruct (includes _ "y"); rewrite !record_after, after_after; reflexivity.
Qed.

(** The outcome of [runProcess], branch by branch. *)
Lemma runProcess_eq w cmd args s :
  runProcess w cmd args s =
  let r := spawnSync w (trace s) cmd args in
  let out := spawn_stdout r in
  let s1 := after s [EvSpawnSync cmd args] in
  match spawn_error r with
  | Some message => (Throw (SlsError ("[" ++ fullPluginName ++ "] " ++ message)), s1)
  | None =>
      if (String.length (spawn_stderr r) =? 0)%nat then (Ok out, s1)
      else
        let errorText := trim (spawn_stderr r) in
        let s2 := after s1 [EvCliLog (logLine errorText)] in
        match classify errorText with
        | IgnoreFalsePositive | IgnoreWarning => (Ok out, s2)
        | Fatal =>
            (Throw (pluginError "Docker Error Detected"),
             after s2 [EvConsoleLog ["stdout:"; out]])
        | Ambiguous =>
            let s3 := after s2 [EvConsoleLog
                                  ["___ERROR DETECTED, BEGIN STDOUT____" ++ char LF; out]] in
            match requestUserConfirmation w defaultPrompt defaultYesText defaultNoText s3 with
            | (Ok _, s4) => (Ok out, s4)
            | (Throw e, s4) => (Throw e, s4)
            end
        end
  end.
Proof.
  unfold runProcess, classify.
  unfold bind at 1. unfold spawn at 1. cbv zeta. rewrite record_after.
  destruct (spawn_error _); [reflexivity|].
  destruct (String.length _ =? 0)%nat; simpl negb; cbv iota; [reflexivity|].
  unfold bind at 1. unfold bind at 1. unfold log at 1, emit at 1. rewrite record_after.
  destruct (negb (includes _ "ERROR:") && _ && _); [reflexivity|].
  destruct (includes _ "warning" && _); [reflexivity|].
  destruct (includes _ "docker").
  - unfold bind, consoleLog, emit, error, throw. rewrite record_after. reflexivity.
  - unfold bind at 1. unfold consoleLog at 1, emit at 1. rewrite record_after.
    destruct (requestUserConfirmation _ _ _ _ _) as [[[]|e] s4]; reflexivity.
Qed.

Lemma length_eqb_0 (s : string) : (String.length s =? 0)%nat = true <-> s = "".
Proof.
  destruct s; simpl; split; intros H; try reflexivity; discriminate.
Qed.

Lemma nonempty_length (s : string) : s <> "" -> (String.length s =? 0)%nat = false.
Proof.
  intros H. destruct (String.length s =? 0)%nat eqn:E; [|reflexivity].
  apply length_eqb_0 in E. contradiction.
Qed.


Lemma not_false_positive text :
  ~ FalsePositiveRule text ->
  negb (includes text "ERROR:")
  && (List.length (split LF text) <? 2)%nat
  && includes (toLowerCase text) "git clone" = false.
Proof.
  intros H.
  destruct (includes text "ERROR:") eqn:Hm; [reflexivity|].
  destruct (List.length (split LF text) <? 2)%nat eqn:Hl; [|reflexivity].
  destruct (includes (toLowerCase text) "git clone") eqn:Hc; [|reflexivity].
  exfalso. apply H. repeat split; try assumption.
  apply Nat.ltb_lt. exact Hl.
Qed.







(** ** The fatal branch, the ambiguous branch and the silent return *)

Lemma classify_rest text :
  ~ FalsePositiveRule text -> ~ WarningRule text ->
  classify text = if includes (toLowerCase text) "docker" then Fatal else Ambiguous.
Proof.
  intros H1 H2. unfold classify. rewrite (not_false_positive _ H1).
  destruct (includes (toLowerCase text) "warning") eqn:Hw; [|reflexivity].
  destruct (includes (toLowerCase text) "error") eqn:He; [reflexivity|].
  exfalso. apply H2. split; [exact Hw|].
  change (includes (toLowerCase text) "error" <> true). congruence.
Qed.

(** What [runProcess] does on examples outside ASCII: white space of two
    and three bytes is trimmed before the lines are counted, and the Kelvin
    sign is a [k] for the test on [docker]. *)
Example runProcess_unicode_ex :
  runProcess Scenario.pipClonesAfterBlank "docker" Scenario.pipExec Scenario.start
  = (Ok "Successfully installed",
     after Scenario.start
       [EvSpawnSync "docker" Scenario.pipExec;
        EvCliLog (logLine "Running command git clone -q https://example.org/dep.git")])
  /\ runProcess Scenario.kelvinDocker "docker" Scenario.pipExec Scenario.start
     = (Throw (pluginError "Docker Error Detected"),
        after Scenario.start
          [EvSpawnSync "docker" Scenario.pipExec;
           EvCliLog (logLine ("DOC" ++ KELVIN_SIGN ++ "ER daemon is not running"));
           EvConsoleLog ["stdout:"; ""]]).
Proof. split; reflexivity. Qed.

(** As C2 states it, for the captured stderr itself, the claim fails: the
    text below has three lines, so it matches neither ignore rule, and it
    contains [docker]; yet [runProcess] raises nothing and returns, since
    the code counts the lines after trimming and finds one. *)
Lemma C2_counterexample :
  spawn_stderr (spawnSync Scenario.gitCloneFailed [] "docker" Scenario.pipExec) <> ""
  /\ ~ FalsePositiveRule Scenario.gitCloneFailedText
  /\ ~ WarningRule Scenario.gitCloneFailedText
  /\ containsIgnoreCase Scenario.gitCloneFailedText "docker"
  /\ runProcess Scenario.gitCloneFailed "docker" Scenario.pipExec Scenario.start
     = (Ok "",
        after Scenario.start
          [EvSpawnSync "docker" Scenario.pipExec;
           EvCliLog (logLine "docker: git clone failed")]).
Proof.
  split; [discriminate|]. split.
  { intros (H & _). vm_compute in H. lia. }
  split.
  { intros (H & _). discriminate H. }
  split; reflexivity.
Qed.

(** C2, amended.  For every launched process whose captured stderr is not
    empty and whose text, white space at both ends removed, matches neither
    ignore rule: when the text contains [docker] in any letter case,
    [runProcess] prints the captured stdout and throws the error
    "Docker Error Detected", and the operator is not asked; otherwise it
    prints the captured stdout and its outcome is that of the confirmation
    gate. *)
Theorem C2_fatal_or_confirmation w cmd args s :
  let r := spawnSync w (trace s) cmd args in
  spawn_error r = None ->
  spawn_stderr r <> "" ->
  let text := trim (spawn_stderr r) in
  let out := spawn_stdout r in
  ~ FalsePositiveRule text ->
  ~ WarningRule text ->
  (containsIgnoreCase text "docker" ->
   classify text = Fatal
   /\ runProcess w cmd args s
      = (Throw (pluginError "Docker Error Detected"),
         after s [EvSpawnSync cmd args; EvCliLog (logLine text);
                  EvConsoleLog ["stdout:"; out]]))
  /\ (~ containsIgnoreCase text "docker" ->
      classify text = Ambiguous
      /\ runProcess w cmd args s
         = match requestUserConfirmation w defaultPrompt defaultYesText defaultNoText
                   (after s [EvSpawnSync cmd args; EvCliLog (logLine text);
                             EvConsoleLog
                               ["___ERROR DETECTED, BEGIN STDOUT____" ++ char LF; out]])
           with
           | (Ok _, s') => (Ok out, s')
           | (Throw e, s') => (Throw e, s')
           end).
Proof.
  intros r Hlaunch Herr text out H1 H2.
  rewrite runProcess_eq. fold r. cbv zeta. rewrite Hlaunch.
  rewrite (nonempty_length _ Herr). fold text. fold out.
  rewrite (classify_rest _ H1 H2). rewrite !after_after. simpl app.
  split; intros Hd.
  - change (includes (toLowerCase text) "docker" = true) in Hd. rewrite Hd.
    split; reflexivity.
  - change (includes (toLowerCase text) "docker" <> true) in Hd.
    destruct (includes (toLowerCase text) "docker"); [congruence|].
    split; reflexivity.
Qed.

Lemma C2_witness :
  runProcess Scenario.dockerDown "docker" ["stop"; "dependency_layer_packager"; "-t"; "0"]
    Scenario.start
  = (Throw (pluginError "Docker Error Detected"),
     after Scenario.start
       [EvSpawnSync "docker" ["stop"; "dependency_layer_packager"; "-t"; "0"];
        EvCliLog (logLine ("Cannot connect to the Docker daemon at unix:///var/run/docker.sock. "
                           ++ "Is the docker daemon running?"));
        EvConsoleLog ["stdout:"; ""]])
  /\ fst (runProcess (Scenario.pipFails "no") "docker" Scenario.pipExec Scenario.start)
     = Throw (pluginError "Aborting")
  /\ fst (runProcess (Scenario.pipFails "Yes") "docker" Scenario.pipExec Scenario.start)
     = Ok "Collecting nosuchpackage".
Proof.
  assert (Hnot1 : forall t, includes (toLowerCase t) "git clone" = false ->
                            ~ FalsePositiveRule t).
  { intros t Ht (_ & _ & H). change (includes (toLowerCase t) "git clone" = true) in H.
    congruence. }
  assert (Hnot2 : forall t, includes (toLowerCase t) "warning" = false -> ~ WarningRule t).
  { intros t Ht (H & _). change (includes (toLowerCase t) "warning" = true) in H.
    congruence. }
  split; [|split].
  - destruct (C2_fatal_or_confirmation Scenario.dockerDown "docker"
                ["stop"; "dependency_layer_packager"; "-t"; "0"] Scenario.start eq_refl)
      as [H _].
    + discriminate.
    + apply Hnot1. reflexivity.
    + apply Hnot2. reflexivity.
    + apply H. reflexivity.
  - destruct (C2_fatal_or_confirmation (Scenario.pipFails "no") "docker" Scenario.pipExec
                Scenario.start eq_refl) as [_ H].
    + discriminate.
    + apply Hnot1. reflexivity.
    + apply Hnot2. reflexivity.
    + destruct H as [_ H]; [intros H; discriminate H|]. rewrite H. reflexivity.
  - destruct (C2_fatal_or_confirmation (Scenario.pipFails "Yes") "docker" Scenario.pipExec
                Scenario.start eq_refl) as [_ H].
    + discriminate.
    + apply Hnot1. reflexivity.
    + apply Hnot2. reflexivity.
    + destruct H as [_ H]; [intros H; discriminate H|]. rewrite H. reflexivity.
Defined.

(** C8.  For every launched process whose captured stderr is empty,
    [runProcess] returns the captured stdout and does nothing but launch
    the process: no log, no classification, no confirmation.  The exit
    status is never inspected: replacing the status of every process by
    any other leaves [runProcess] unchanged. *)
Theorem C8_empty_stderr_is_success w cmd args s :
  (let r := spawnSync w (trace s) cmd args in
   spawn_error r = None ->
   spawn_stderr r = "" ->
   runProcess w cmd args s = (Ok (spawn_stdout r), after s [EvSpawnSync cmd args]))
  /\ (forall status, runProcess (withStatus status w) cmd args s = runProcess w cmd args s).
Proof.
  split.
  - intros r Hlaunch Herr. rewrite runProcess_eq. fold r. cbv zeta.
    rewrite Hlaunch, Herr. reflexivity.
  - intros status. rewrite !runProcess_eq. cbv zeta.
    rewrite !requestUserConfirmation_eq. reflexivity.
Qed.

Lemma C8_witness :
  runProcess (Scenario.silent 1) "docker" ["pull"; "lambci/lambda:build-python3.8"]
    Scenario.start
  = (Ok "done",
     after Scenario.start [EvSpawnSync "docker" ["pull"; "lambci/lambda:build-python3.8"]]).
Proof.
  destruct (C8_empty_stderr_is_success (Scenario.silent 1) "docker"
              ["pull"; "lambci/lambda:build-python3.8"] Scenario.start) as [H _].
  apply H; reflexivity.
Defined.

(** ** The confirmation gate *)

Lemma lowerChar_y c :
  Ascii.eqb "y" (lowerChar c) = Ascii.eqb "y" c || Ascii.eqb "Y" c.
Proof.
  destruct c as [[] [] [] [] [] [] [] []]; reflexivity.
Qed.

Lemma containsLetterY_cons c s :
  containsLetterY (String c s) <-> (c = "y"%char \/ c = "Y"%char) \/ containsLetterY s.
Proof.
  unfold containsLetterY. split.
  - intros [[|i] H]; simpl in H.
    + left. destruct H as [H|H]; injection H as ->; auto.
    + right. exists i. exact H.
  - intros [[->| ->]|[i H]].
    + exists 0. left. reflexivity.
    + exists 0. right. reflexivity.
    + exists (S i). exact H.
Qed.

(** The test of the gate, [response.toLowerCase().includes("y")], holds
    exactly of the inputs that have a y, small or capital, somewhere. *)
Lemma includes_y_iff input :
  includes (toLowerCase input) "y" = true <-> containsLetterY input.
Proof.
  induction input as [|r IH|r IH|c s Hs IH] using lower_cases.
  - split; [discriminate|]. intros [i [H|H]]; destruct i; discriminate H.
  - rewrite toLowerCase_kelvin. unfold KELVIN_SIGN, utf8_3. simpl append.
    rewrite !containsLetterY_cons, <- IH, includes_skip by reflexivity.
    split; [tauto|]. intros [[H|H]|[[H|H]|[[H|H]|H]]]; try discriminate H. exact H.
  - rewrite toLowerCase_idot. unfold CAPITAL_I_DOT, SMALL_I_DOT, utf8_2, utf8_3.
    simpl append.
    rewrite !containsLetterY_cons, <- IH, !includes_skip by reflexivity.
    split; [tauto|]. intros [[H|H]|[[H|H]|H]]; try discriminate H. exact H.
  - rewrite containsLetterY_cons, <- IH, (toLowerCase_plain c s Hs).
    rewrite includes_cons, prefix_cons, lowerChar_y.
    replace (prefix "" (toLowerCase s)) with true by (destruct (toLowerCase s); reflexivity).
    rewrite andb_true_r, !orb_true_iff, !Ascii.eqb_eq.
    split; (intros [[H|H]|H]; [left; left|left; right|right]); congruence.
Qed.

(** ** An abort is the last thing that happens *)

Lemma AbortStops_ret {A} (a : A) : AbortStops (ret a).
Proof.
  intros s. exists []. simpl. rewrite app_nil_r. split; [reflexivity|]. intros [].
Qed.

Lemma AbortStops_throw {A} e : AbortStops (@throw A e).
Proof.
  intros s. exists []. simpl. rewrite app_nil_r. split; [reflexivity|]. intros [].
Qed.

Lemma AbortStops_bind {A B} (m : M A) (k : A -> M B) :
  AbortStops m -> (forall a, AbortStops (k a)) -> AbortStops (bind m k).
Proof.
  intros Hm Hk s. unfold bind.
  destruct (Hm s) as (evs1 & Ht1 & Hf1).
  destruct (m s) as [[a|e] s1]; simpl in Ht1, Hf1.
  - destruct (Hk a s1) as (evs2 & Ht2 & Hf2).
    exists (evs1 ++ evs2)%list. rewrite Ht2, Ht1, app_assoc. split; [reflexivity|].
    intros Hin. apply in_app_or in Hin. destruct Hin as [Hin|Hin].
    + destruct (Hf1 Hin) as [Hr _]. discriminate Hr.
    + destruct (Hf2 Hin) as [Hr [evs' ->]]. split; [exact Hr|].
      exists (evs1 ++ evs')%list. rewrite app_assoc. reflexivity.
  - exists evs1. simpl. split; [exact Ht1|].
    intros Hin. destruct (Hf1 Hin) as [Hr Hl]. split; [|exact Hl].
    injection Hr as ->. reflexivity.
Qed.

Lemma AbortStops_emit e : e <> abortEvent -> AbortStops (emit e).
Proof.
  intros Hne s. exists [e]. split; [reflexivity|].
  intros [H|[]]. contradiction.
Qed.

Lemma AbortStops_log msg : AbortStops (log msg).
Proof. apply AbortStops_emit. discriminate. Qed.

Lemma AbortStops_spawn w cmd args : AbortStops (spawn w cmd args).
Proof.
  intros s. exists [EvSpawnSync cmd args]. split; [reflexivity|].
  intros [H|[]]. discriminate H.
Qed.

Lemma AbortStops_existsSync w p : AbortStops (existsSync w p).
Proof.
  intros s. exists []. simpl. rewrite app_nil_r. split; [reflexivity|]. intros [].
Qed.

Lemma AbortStops_statSyncSize w p : AbortStops (statSyncSize w p).
Proof.
  intros s. exists []. simpl. rewrite app_nil_r. split; [reflexivity|]. intros [].
Qed.

Lemma AbortStops_fsSync w e : e <> abortEvent -> AbortStops (fsSync w e).
Proof.
  intros Hne s. exists [e]. unfold fsSync.
  destruct (fsThrows w (trace s) e); (split; [reflexivity|]); intros [H|[]]; contradiction.
Qed.

Lemma AbortStops_remove w dir : AbortStops (remove w dir).
Proof.
  intros s. exists [EvRemove dir]. split; [reflexivity|].
  intros [H|[]]. discriminate H.
Qed.

Lemma AbortStops_catchLog line p : AbortStops (catchLog line p).
Proof.
  intros s. exists []. unfold catchLog.
  destruct p; simpl; rewrite app_nil_r; (split; [reflexivity|]); intros [].
Qed.

Lemma AbortStops_requestUserConfirmation w :
  AbortStops (requestUserConfirmation w defaultPrompt defaultYesText defaultNoText).
Proof.
  intros s. rewrite requestUserConfirmation_eq.
  destruct (includes _ "y").
  - exists [EvQuestion defaultPrompt; EvConsoleLog [defaultYesText]].
    split; [reflexivity|]. intros [H|[H|[]]]; discriminate H.
  - exists ([EvQuestion defaultPrompt] ++ [abortEvent])%list.
    split; [reflexivity|]. intros _. split; [reflexivity|].
    exists [EvQuestion defaultPrompt]. reflexivity.
Qed.

Lemma AbortStops_forEach {A} (f : A -> M unit) xs :
  (forall x, AbortStops (f x)) -> AbortStops (forEach f xs).
Proof.
  intros Hf. induction xs as [|x xs IH]; simpl.
  - apply AbortStops_ret.
  - apply AbortStops_bind; [apply Hf | intros _; exact IH].
Qed.

Lemma AbortStops_mapM {A B} (f : A -> M B) xs :
  (forall x, AbortStops (f x)) -> AbortStops (mapM f xs).
Proof.
  intros Hf. induction xs as [|x xs IH]; simpl.
  - apply AbortStops_ret.
  - apply AbortStops_bind; [apply Hf | intros y].
    apply AbortStops_bind; [exact IH | intros ys; apply AbortStops_ret].
Qed.

Create HintDb abort.
#[local] Hint Resolve AbortStops_ret AbortStops_throw AbortStops_log AbortStops_spawn
  AbortStops_existsSync AbortStops_statSyncSize AbortStops_remove AbortStops_catchLog
  AbortStops_requestUserConfirmation : abort.

(** Decompose a method into its statements and settle each of them. *)
Ltac abort_stops :=
  repeat first
    [ progress auto with abort
    | apply AbortStops_bind; [|intros ?]
    | apply AbortStops_forEach; intros ?
    | apply AbortStops_mapM; intros ?
    | apply AbortStops_emit; discriminate
    | apply AbortStops_fsSync; discriminate
    | match goal with
      | |- AbortStops (if ?b then _ else _) => destruct b
      | |- AbortStops (match ?x with _ => _ end) => destruct x
      end ].

Lemma AbortStops_runProcess w cmd args : AbortStops (runProcess w cmd args).
Proof. unfold runProcess, consoleLog, error. abort_stops. Qed.

#[local] Hint Resolve AbortStops_runProcess : abort.

Lemma AbortStops_clean w cfg : AbortStops (clean w cfg).
Proof. unfold clean. abort_stops. Qed.

Lemma AbortStops_installRequirements w cfg buildPath req :
  AbortStops (installRequirements w cfg buildPath req).
Proof. unfold installRequirements. abort_stops. Qed.

#[local] Hint Resolve AbortStops_installRequirements : abort.

Lemma AbortStops_autoconfigArtifacts cfg : AbortStops (autoconfigArtifacts cfg).
Proof.
  intros s. exists []. unfold autoconfigArtifacts.
  destruct (autoconfigEach cfg (functions s)) as [r fs]. simpl.
  rewrite app_nil_r. split; [reflexivity|]. intros [].
Qed.

Lemma AbortStops_setupDocker w cfg : AbortStops (setupDocker w cfg).
Proof.
  unfold setupDocker, checkDocker, ensureImage, setupContainer. abort_stops.
Qed.

Lemma AbortStops_makePackage w cfg target : AbortStops (makePackage w cfg target).
Proof.
  unfold makePackage, pathJoin, copyInclude, installIfExists. abort_stops.
Qed.

Lemma AbortStops_beforePackage sls w cfg : AbortStops (beforePackage sls w cfg).
Proof.
  unfold beforePackage.
  apply AbortStops_bind; [apply AbortStops_autoconfigArtifacts | intros _].
  apply AbortStops_bind; [apply AbortStops_emit; discriminate | intros _].
  apply AbortStops_bind; [apply AbortStops_setupDocker | intros _].
  apply AbortStops_mapM. intros target. apply AbortStops_makePackage.
Qed.

(** The first exception of the mapper is the outcome of [mapM]: the
    remaining elements are not touched. *)
Lemma mapM_throw {A B} (f : A -> M B) x xs s e s' :
  f x s = (Throw e, s') -> mapM f (x :: xs) s = (Throw e, s').
Proof. intros H. simpl. apply bind_throw. exact H. Qed.

Example getPluginConfig_twoLayers : getPluginConfig Scenario.twoLayers = Ok Scenario.config.
Proof. reflexivity. Qed.

(** C3.  The confirmation gate continues exactly when the operator's input
    has a letter y, small or capital, at some position, and otherwise
    prints the abort message and throws the error "Aborting".  The error
    ends the whole run of the packaging hook: whenever the abort message is
    printed during the hook, the hook fails with that error and the message
    is the last event of the run; in particular an exception of
    [makePackage] on one target is the outcome of the map over the targets,
    whose remaining targets are not packaged. *)
Theorem C3_confirmation_gate sls w cfg :
  (forall s prompt yesText noText,
     let input := question w (trace s) prompt in
     (containsLetterY input ->
      requestUserConfirmation w prompt yesText noText s
      = (Ok tt, after s [EvQuestion prompt; EvConsoleLog [yesText]]))
     /\ (~ containsLetterY input ->
         requestUserConfirmation w prompt yesText noText s
         = (Throw (pluginError "Aborting"),
            after s [EvQuestion prompt; EvConsoleLog [noText]])))
  /\ (forall s, exists evs,
        trace (snd (beforePackage sls w cfg s)) = (trace s ++ evs)%list
        /\ (In abortEvent evs ->
            fst (beforePackage sls w cfg s) = Throw (pluginError "Aborting")
            /\ exists evs', evs = (evs' ++ [abortEvent])%list))
  /\ (forall target rest s e s',
        makePackage w cfg target s = (Throw e, s') ->
        mapM (makePackage w cfg) (target :: rest) s = (Throw e, s')).
Proof.
  split; [|split].
  - intros s prompt yesText noText input. rewrite requestUserConfirmation_eq. fold input.
    split; intros H.
    + apply includes_y_iff in H. rewrite H. reflexivity.
    + rewrite <- includes_y_iff in H.
      destruct (includes (toLowerCase input) "y"); [congruence | reflexivity].
  - exact (AbortStops_beforePackage sls w cfg).
  - intros target rest s e s'. apply mapM_throw.
Qed.

Lemma C3_witness :
  fst (requestUserConfirmation (Scenario.pipFailsInDocker "no")
         defaultPrompt defaultYesText defaultNoText Scenario.start)
  = Throw (pluginError "Aborting")
  /\ fst (requestUserConfirmation (Scenario.pipFailsInDocker "okaY")
            defaultPrompt defaultYesText defaultNoText Scenario.start)
     = Ok tt
  /\ fst (beforePackage Scenario.twoLayers (Scenario.pipFailsInDocker "no")
            Scenario.config Scenario.start)
     = Throw (pluginError "Aborting").
Proof.
  destruct (C3_confirmation_gate Scenario.twoLayers (Scenario.pipFailsInDocker "no")
              Scenario.config) as (Hgate & Hrun & _).
  destruct (C3_confirmation_gate Scenario.twoLayers (Scenario.pipFailsInDocker "okaY")
              Scenario.config) as (Hgate' & _ & _).
  split; [|split].
  - destruct (Hgate Scenario.start defaultPrompt defaultYesText defaultNoText) as [_ H].
    rewrite H; [reflexivity|].
    intros [i [Hi|Hi]]; do 3 (destruct i as [|i]; [discriminate Hi|]); discriminate Hi.
  - destruct (Hgate' Scenario.start defaultPrompt defaultYesText defaultNoText) as [H _].
    rewrite H; [reflexivity|]. exists 3. right. reflexivity.
  - destruct (Hrun Scenario.start) as (evs & Htrace & Habort).
    apply Habort. simpl app in Htrace. rewrite <- Htrace. vm_compute. tauto.
Defined.

(** ** Processes launched by [runProcess] *)

Lemma spawned_app evs evs' : spawned (evs ++ evs') = (spawned evs ++ spawned evs')%list.
Proof. apply filter_app. Qed.

(** [runProcess] launches its command and no other process, and touches
    nothing but the trace. *)
Lemma runProcess_after w cmd args s :
  exists evs,
    snd (runProcess w cmd args s) = after s (EvSpawnSync cmd args :: evs)
    /\ spawned evs = [].
Proof.
  rewrite runProcess_eq. cbv zeta. rewrite requestUserConfirmation_eq.
  destruct (spawn_error _); [exists []; split; reflexivity|].
  destruct (String.length _ =? 0)%nat; [exists []; split; reflexivity|].
  destruct (classify _); rewrite ?after_after; simpl app;
    try (eexists; split; [reflexivity|reflexivity]).
  destruct (includes _ "y"); rewrite ?after_after; simpl app;
    (eexists; split; [reflexivity|reflexivity]).
Qed.

Lemma runProcess_result w cmd args s r s' :
  runProcess w cmd args s = (r, s') ->
  exists evs, s' = after s (EvSpawnSync cmd args :: evs) /\ spawned evs = [].
Proof.
  intros H. destruct (runProcess_after w cmd args s) as (evs & Hs & Hn).
  rewrite H in Hs. exists evs. split; assumption.
Qed.

(** The outcome of [installRequirements] on an existing, non-empty
    manifest is that of the one [docker exec ... pip install] it runs. *)
Lemma installRequirements_runs w cfg buildPath req s :
  pathExists w (trace s) req = true ->
  statSize w (trace s) req <> 0%Z ->
  installRequirements w cfg buildPath req s
  = match runProcess w "docker"
            ["exec"; containerName cfg; "pip"; "install"; "--upgrade"; "-t";
             upath_normalize w buildPath; "-r";
             upath_normalize w ("/var/task/" ++ req)] s
    with
    | (Ok out, s') => (Ok (Some out), s')
    | (Throw e, s') => (Throw e, s')
    end.
Proof.
  intros Hex Hsize. apply Z.eqb_neq in Hsize.
  unfold installRequirements, bind, existsSync, statSyncSize, ret.
  rewrite Hex. cbn [negb]. rewrite Hsize. cbn [app].
  destruct (runProcess _ _ _ _) as [[out|e] s']; reflexivity.
Qed.

(** C5.  [installRequirements] on a manifest path that does not exist does
    nothing; on an existing manifest of size zero it logs a warning and
    launches no process; on an existing manifest of another size it
    launches exactly one process, the installer
    [docker exec <container> pip install --upgrade -t <buildPath> -r <manifest>]. *)
Theorem C5_manifest_handling w cfg buildPath req s :
  (pathExists w (trace s) req = false ->
   installRequirements w cfg buildPath req s = (Ok None, s))
  /\ (pathExists w (trace s) req = true ->
      statSize w (trace s) req = 0%Z ->
      installRequirements w cfg buildPath req s
      = (Ok None,
         after s [EvCliLog (logLine ("WARNING: requirements file at " ++ req
                                     ++ " is empty. Skiping."))]))
  /\ (pathExists w (trace s) req = true ->
      statSize w (trace s) req <> 0%Z ->
      exists evs,
        snd (installRequirements w cfg buildPath req s) = after s evs
        /\ spawned evs
           = [EvSpawnSync "docker"
                ["exec"; containerName cfg; "pip"; "install"; "--upgrade"; "-t";
                 upath_normalize w buildPath; "-r";
                 upath_normalize w ("/var/task/" ++ req)]]).
Proof.
  split; [|split].
  - intros Hex. unfold installRequirements, bind, existsSync. rewrite Hex. reflexivity.
  - intros Hex Hsize. unfold installRequirements, bind, existsSync, statSyncSize.
    rewrite Hex. cbn [negb]. cbv beta iota. rewrite Hsize. reflexivity.
  - intros Hex Hsize. rewrite (installRequirements_runs _ _ _ _ _ Hex Hsize).
    destruct (runProcess _ _ _ _) as [r s'] eqn:Hrun.
    destruct (runProcess_result _ _ _ _ _ _ Hrun) as (evs & -> & Hn).
    eexists. split.
    + destruct r; reflexivity.
    + simpl. rewrite Hn. reflexivity.
Qed.

Lemma C5_witness :
  installRequirements (Scenario.silent 0) Scenario.config "build/api"
    "build/api/requirements.txt" Scenario.start
  = (Ok None, Scenario.start)
  /\ installRequirements (Scenario.manifest 0) Scenario.config "build/api"
       "build/api/requirements.txt" Scenario.start
     = (Ok None,
        after Scenario.start
          [EvCliLog (logLine "WARNING: requirements file at build/api/requirements.txt is empty. Skiping.")])
  /\ exists evs,
       snd (installRequirements (Scenario.manifest 24) Scenario.config "build/api"
              "build/api/requirements.txt" Scenario.start)
       = after Scenario.start evs
       /\ spawned evs
          = [EvSpawnSync "docker"
               ["exec"; "dependency_layer_packager"; "pip"; "install"; "--upgrade"; "-t";
                "build/api"; "-r"; "/var/task/build/api/requirements.txt"]].
Proof.
  split; [|split].
  - destruct (C5_manifest_handling (Scenario.silent 0) Scenario.config "build/api"
                "build/api/requirements.txt" Scenario.start) as (H & _ & _).
    apply H. reflexivity.
  - destruct (C5_manifest_handling (Scenario.manifest 0) Scenario.config "build/api"
                "build/api/requirements.txt" Scenario.start) as (_ & H & _).
    apply H; reflexivity.
  - destruct (C5_manifest_handling (Scenario.manifest 24) Scenario.config "build/api"
                "build/api/requirements.txt" Scenario.start) as (_ & _ & H).
    apply H; [reflexivity | discriminate].
Defined.

(** ** [setupContainer] *)




(** ** Configuration *)

(** C9.  [getPluginConfig] throws when the option [buildDir] is absent or
    the empty string (the error "No buildDir configuration specified"
    whenever the service has a [custom] section at all), and returns a
    configuration with that very [buildDir] when the option is a non-empty
    string; the [buildDir] of a resolved configuration is never empty. *)
Theorem C9_buildDir_required sls :
  (configuredBuildDir sls = None \/ configuredBuildDir sls = Some "" ->
   exists e, getPluginConfig sls = Throw e
             /\ (custom sls <> None ->
                 e = pluginError "No buildDir configuration specified"))
  /\ (forall dir, configuredBuildDir sls = Some dir -> dir <> "" ->
      exists cfg, getPluginConfig sls = Ok cfg /\ buildDir cfg = dir)
  /\ (forall cfg, getPluginConfig sls = Ok cfg -> buildDir cfg <> "").
Proof.
  unfold configuredBuildDir, getPluginConfig.
  destruct (custom sls) as [c|].
  - destruct (dependencyLayer c) as [raw|]; simpl.
    + destruct (raw_buildDir raw) as [[|a b]|]; repeat split.
      * intros _. eexists. split; [reflexivity | intros _; reflexivity].
      * intros dir H Hne. injection H as <-. congruence.
      * intros cfg H. discriminate H.
      * intros [H|H]; discriminate H.
      * intros dir H _. injection H as <-. eexists. split; reflexivity.
      * intros cfg H. injection H as <-. simpl. discriminate.
      * intros _. eexists. split; [reflexivity | intros _; reflexivity].
      * intros dir H. discriminate H.
      * intros cfg H. discriminate H.
    + repeat split.
      * intros _. eexists. split; [reflexivity | intros _; reflexivity].
      * intros dir H. discriminate H.
      * intros cfg H. discriminate H.
  - repeat split.
    + intros _. eexists. split; [reflexivity | intros H; congruence].
    + intros dir H. discriminate H.
    + intros cfg H. discriminate H.
Qed.

Lemma C9_witness :
  (exists e, getPluginConfig (configure emptyConfig Scenario.twoLayers) = Throw e
             /\ (custom (configure emptyConfig Scenario.twoLayers) <> None ->
                 e = pluginError "No buildDir configuration specified"))
  /\ (exists cfg, getPluginConfig Scenario.twoLayers = Ok cfg /\ buildDir cfg = "build")
  /\ buildDir Scenario.config <> "".
Proof.
  split; [|split].
  - destruct (C9_buildDir_required (configure emptyConfig Scenario.twoLayers)) as (H & _ & _).
    apply H. left. reflexivity.
  - destruct (C9_buildDir_required Scenario.twoLayers) as (_ & H & _).
    apply H; [reflexivity | discriminate].
  - destruct (C9_buildDir_required Scenario.twoLayers) as (_ & _ & H).
    apply H. reflexivity.
Defined.

Lemma getPluginConfig_abortOnPackagingErrors v v' raw sls :
  getPluginConfig (configure (setAbortOnPackagingErrors v raw) sls)
  = getPluginConfig (configure (setAbortOnPackagingErrors v' raw) sls).
Proof.
  unfold getPluginConfig. simpl.
  destruct (raw_buildDir raw) as [[|a b]|]; try reflexivity.
  destruct v as [[]|], v' as [[]|]; reflexivity.
Qed.

(** C10.  The option [abortOnPackagingErrors] has no effect.  Two services
    that differ only in its value (set to true, set to false, or left out)
    resolve to the same configuration, in which the property is true, and so
    both hooks behave identically on them; and no method of the plugin reads
    the property of the resolved configuration: each method is the same
    computation whatever the property is. *)
Theorem C10_abortOnPackagingErrors_unused sls raw w v v' :
  getPluginConfig (configure (setAbortOnPackagingErrors v raw) sls)
  = getPluginConfig (configure (setAbortOnPackagingErrors v' raw) sls)
  /\ match getPluginConfig (configure (setAbortOnPackagingErrors v raw) sls) with
     | Ok cfg => abortOnPackagingErrors cfg = true
     | Throw _ => True
     end
  /\ (forall s,
        packageService (configure (setAbortOnPackagingErrors v raw) sls) w s
        = packageService (configure (setAbortOnPackagingErrors v' raw) sls) w s
        /\ cleanService (configure (setAbortOnPackagingErrors v raw) sls) w s
           = cleanService (configure (setAbortOnPackagingErrors v' raw) sls) w s)
  /\ (forall cfg b,
        let cfg' := withAbortOnPackagingErrors b cfg in
        clean w cfg' = clean w cfg
        /\ (forall buildPath req,
              installRequirements w cfg' buildPath req
              = installRequirements w cfg buildPath req)
        /\ autoconfigArtifacts cfg' = autoconfigArtifacts cfg
        /\ setupContainer w cfg' = setupContainer w cfg
        /\ ensureImage w cfg' = ensureImage w cfg
        /\ setupDocker w cfg' = setupDocker w cfg
        /\ (forall target, makePackage w cfg' target = makePackage w cfg target)
        /\ beforePackage sls w cfg' = beforePackage sls w cfg
        /\ afterDeploy w cfg' = afterDeploy w cfg).
Proof.
  split; [apply getPluginConfig_abortOnPackagingErrors|].
  split.
  - unfold getPluginConfig. simpl.
    destruct (raw_buildDir raw) as [[|a b]|]; try exact I.
    destruct v as [[]|]; reflexivity.
  - split.
    + intros s. unfold packageService, cleanService.
      rewrite (getPluginConfig_abortOnPackagingErrors v v').
      split; reflexivity.
    + intros cfg b. repeat split; reflexivity.
Qed.

(** ** [clean] *)

(** The state in which [clean] launches [docker stop]: the removal of the
    build directory has been started, and its failure, if any, is a log
    line that waits for the running code to yield. *)
Lemma clean_eq w cfg s :
  truthy (cleanup cfg) = true ->
  clean w cfg s
  = let h := (trace s ++ [EvCliLog (logLine "Cleaning build directory...")])%list in
    let s1 :=
      {| trace := (trace s ++ [EvCliLog (logLine "Cleaning build directory...");
                               EvRemove (buildDir cfg);
                               EvCliLog (logLine "Removing Docker container...")])%list;
         pending := (pending s
                     ++ match removeRejects w h (buildDir cfg) with
                        | Some err => [logLine err]
                        | None => []
                        end)%list;
         functions := functions s |} in
    match runProcess w "docker" ["stop"; containerName cfg; "-t"; "0"] s1 with
    | (Ok _, s2) => (Ok true, s2)
    | (Throw e, s2) => (Throw e, s2)
    end.
Proof.
  intros Hc. unfold clean. rewrite Hc. cbn [negb]. cbv zeta.
  unfold bind at 1. unfold log at 1, emit at 1.
  unfold bind at 1. unfold remove at 1. cbn [record trace pending functions].
  unfold bind at 1. unfold catchLog at 1.
  destruct (removeRejects w _ (buildDir cfg)) as [err|];
    unfold bind at 1; unfold log at 1, emit at 1;
    cbn [record trace pending functions]; rewrite <- ?app_assoc; cbn [app];
    rewrite ?app_nil_r; unfold bind, ret;
    unfold record; cbn [trace pending functions]; rewrite <- ?app_assoc; cbn [app];
    destruct (runProcess w _ _ _) as [[out|e] s2]; reflexivity.
Qed.

(** As C6 states it, the claim fails: with cleanup enabled, a failure of
    [docker stop] (here the daemon is not running) is thrown by [clean]. *)
Lemma C6_counterexample :
  truthy (cleanup Scenario.config) = true
  /\ fst (clean Scenario.dockerDown Scenario.config Scenario.start)
     = Throw (pluginError "Docker Error Detected").
Proof. split; reflexivity. Qed.

(** C6, amended.  With cleanup enabled, a failure of the removal of the
    build directory never propagates: it is logged once the hook has
    yielded, and whatever the removal does, the outcome of [clean] is
    decided by [runProcess] on [docker stop <container> -t 0] alone:
    [clean] returns true when [runProcess] returns, and throws what
    [runProcess] throws (a failed launch, an error of Docker, an abort by
    the operator). *)
Theorem C6_clean_failures w cfg s :
  truthy (cleanup cfg) = true ->
  (exists s1,
     trace s1 = (trace s ++ [EvCliLog (logLine "Cleaning build directory...");
                             EvRemove (buildDir cfg);
                             EvCliLog (logLine "Removing Docker container...")])%list
     /\ clean w cfg s
        = match runProcess w "docker" ["stop"; containerName cfg; "-t"; "0"] s1 with
          | (Ok _, s2) => (Ok true, s2)
          | (Throw e, s2) => (Throw e, s2)
          end)
  /\ (forall err,
        removeRejects w (trace s ++ [EvCliLog (logLine "Cleaning build directory...")])
          (buildDir cfg) = Some err ->
        In (EvCliLog (logLine err)) (trace (snd (runHook (afterDeploy w cfg) s)))).
Proof.
  intros Hc. rewrite (clean_eq _ _ _ Hc). cbv zeta. split.
  - eexists. split; [|reflexivity]. reflexivity.
  - intros err Herr. unfold runHook, afterDeploy. rewrite (clean_eq _ _ _ Hc). cbv zeta.
    rewrite Herr.
    match goal with
    | |- context [runProcess w ?c ?a ?s1] =>
        destruct (runProcess w c a s1) as [r s2] eqn:Hrun;
        destruct (runProcess_result _ _ _ _ _ _ Hrun) as (evs & -> & _)
    end.
    assert (Hin : In (EvCliLog (logLine err))
                     (trace (settle (after
                        {| trace := (trace s ++ [EvCliLog (logLine "Cleaning build directory...");
                                                 EvRemove (buildDir cfg);
                                                 EvCliLog (logLine "Removing Docker container...")])%list;
                           pending := (pending s ++ [logLine err])%list;
                           functions := functions s |}
                        (EvSpawnSync "docker" ["stop"; containerName cfg; "-t"; "0"] :: evs))))).
    { simpl. apply in_or_app. right. rewrite map_app. apply in_or_app. right.
      left. reflexivity. }
    destruct r; exact Hin.
Qed.

Lemma C6_witness :
  runHook (afterDeploy Scenario.removalFails Scenario.config) Scenario.start
  = (Ok true,
     {| trace :=
          [EvCliLog (logLine "Cleaning build directory...");
           EvRemove "build";
           EvCliLog (logLine "Removing Docker container...");
           EvSpawnSync "docker" ["stop"; "dependency_layer_packager"; "-t"; "0"];
           EvCliLog (logLine "Error: EBUSY: resource busy or locked, rmdir 'build'")];
        pending := []; functions := [] |})
  /\ In (EvCliLog (logLine "Error: EBUSY: resource busy or locked, rmdir 'build'"))
        (trace (snd (runHook (afterDeploy Scenario.removalFails Scenario.config)
                       Scenario.start))).
Proof.
  split; [reflexivity|].
  destruct (C6_clean_failures Scenario.removalFails Scenario.config Scenario.start eq_refl)
    as [_ H].
  apply H. reflexivity.
Defined.

(** ** [makePackage] *)

(** The targets that [selectAll] enumerates carry no include paths. *)
Lemma selectAll_includes sls target : In target (selectAll sls) -> includes_ target = None.
Proof.
  unfold selectAll. intros H. apply in_map_iff in H.
  destruct H as (kv & <- & _). reflexivity.
Qed.

(** The loop over the include paths copies the paths that exist, in
    order, and does nothing else. *)
Lemma forEach_copyInclude w buildPath present incs : forall s,
  (forall h item, fsThrows w h (EvCopySync item buildPath) = None) ->
  (forall h item, In item incs -> pathExists w h item = present item) ->
  forEach (copyInclude w buildPath) incs s
  = (Ok tt, after s (map (fun item => EvCopySync item buildPath) (filter present incs))).
Proof.
  induction incs as [|item incs IH]; intros s Hfs Hex.
  - simpl. unfold ret. rewrite after_nil. reflexivity.
  - cbn [forEach]. unfold bind at 1. unfold copyInclude at 1.
    unfold bind at 1. unfold existsSync at 1.
    rewrite (Hex _ item (or_introl eq_refl)). cbn [filter].
    assert (Hex' : forall h i, In i incs -> pathExists w h i = present i).
    { intros h i Hi. apply Hex. right. exact Hi. }
    destruct (present item).
    + unfold fsSync at 1. rewrite Hfs. rewrite record_after.
      rewrite (IH _ Hfs Hex'), after_after. reflexivity.
    + unfold ret at 1. apply (IH _ Hfs Hex').
Qed.

(** As C4 states it, the claim fails on the packaging hook: the layer
    [api] declares the include path [./common], which exists, and the run
    succeeds without copying it; only the global include path is copied. *)
Lemma C4_counterexample :
  fst (beforePackage Scenario.layerWithIncludes Scenario.commonExists Scenario.config
         Scenario.start) = Ok [tt]
  /\ (exists layer,
        In ("api", layer) (layers Scenario.layerWithIncludes)
        /\ In "./common" (declaredIncludes layer))
  /\ pathExists Scenario.commonExists
       (trace (snd (beforePackage Scenario.layerWithIncludes Scenario.commonExists
                      Scenario.config Scenario.start))) "./common" = true
  /\ copied (trace (snd (beforePackage Scenario.layerWithIncludes Scenario.commonExists
                           Scenario.config Scenario.start)))
     = [EvCopySync "./common_files" "build/api"].
Proof.
  split; [reflexivity|]. split.
  - eexists. split; [left; reflexivity|]. left. reflexivity.
  - split; reflexivity.
Qed.

(** C4, amended.  [makePackage] on a target whose name is defined, when no
    creation of the build directory and no copy into it fails: after the
    log line and the creation of the build directory, the include paths of
    the target as [makePackage] receives it (none when the property is
    absent), followed by the global include paths, are copied into the
    build directory, in order, each one when it exists; a path that does not
    exist leaves no trace at all; then the manifests are installed and the
    directory is zipped.  The targets that [selectAll] enumerates carry no
    include paths, so in the packaging hook these are the global include
    paths alone. *)
Theorem C4_existing_includes_copied w cfg target n present s :
  name target = Some n ->
  let buildPath := path_join w (buildDir cfg) n in
  let incs := (orList (includes_ target) [] ++ globalIncludes cfg)%list in
  (forall h, fsThrows w h (EvEnsureDirSync buildPath) = None) ->
  (forall h item, fsThrows w h (EvCopySync item buildPath) = None) ->
  (forall h item, In item incs -> pathExists w h item = present item) ->
  makePackage w cfg target s
  = bind (forEach (installIfExists w cfg buildPath)
            (path_join w buildPath (requirementsFile cfg) :: globalRequirements cfg))
         (fun _ => fsSync w (EvZip buildPath (buildPath ++ ".zip")))
         (after s ([EvCliLog (logLine ("Packaging " ++ n ++ "..."));
                    EvEnsureDirSync buildPath]
                   ++ map (fun item => EvCopySync item buildPath) (filter present incs))%list)
  /\ (forall sls target', In target' (selectAll sls) ->
        (orList (includes_ target') [] ++ globalIncludes cfg)%list = globalIncludes cfg).
Proof.
  intros Hname buildPath incs Hdir Hcopy Hex. split.
  - unfold makePackage. rewrite Hname. cbn [template pathJoin].
    unfold bind at 1. unfold log at 1, emit at 1.
    unfold bind at 1. unfold ret at 1. cbv zeta. fold buildPath.
    unfold bind at 1. unfold fsSync at 1. rewrite Hdir. rewrite !record_after, after_after.
    unfold bind at 1. fold incs.
    rewrite (forEach_copyInclude w buildPath present incs _ Hcopy Hex), after_after.
    reflexivity.
  - intros sls target' Hin. rewrite (selectAll_includes _ _ Hin). reflexivity.
Qed.

Lemma C4_witness :
  copied (trace (snd (makePackage Scenario.commonExists Scenario.config Scenario.apiTarget
                        Scenario.start)))
  = [EvCopySync "./common" "build/api"; EvCopySync "./common_files" "build/api"].
Proof.
  destruct (C4_existing_includes_copied Scenario.commonExists Scenario.config
              Scenario.apiTarget "api"
              (fun p => String.eqb p "./common" || String.eqb p "./common_files")
              Scenario.start eq_refl) as [H _].
  - reflexivity.
  - reflexivity.
  - reflexivity.
  - rewrite H. reflexivity.
Defined.

(** * Further properties of the plugin *)

(** ** Events that a method may add *)

Lemma Emits_ret {A} P (a : A) : Emits P (ret a).
Proof. intros s. exists []. simpl. rewrite app_nil_r. split; [reflexivity | constructor]. Qed.

Lemma Emits_throw {A} P e : Emits P (@throw A e).
Proof. intros s. exists []. simpl. rewrite app_nil_r. split; [reflexivity | constructor]. Qed.

Lemma Emits_bind {A B} P (m : M A) (k : A -> M B) :
  Emits P m -> (forall a, Emits P (k a)) -> Emits P (bind m k).
Proof.
  intros Hm Hk s. unfold bind.
  destruct (Hm s) as (evs1 & Ht1 & Hf1).
  destruct (m s) as [[a|e] s1]; simpl in Ht1.
  - destruct (Hk a s1) as (evs2 & Ht2 & Hf2).
    exists (evs1 ++ evs2)%list. rewrite Ht2, Ht1, app_assoc. split; [reflexivity|].
    apply Forall_app. split; assumption.
  - exists evs1. split; assumption.
Qed.

Lemma Emits_emit P e : P e -> Emits P (emit e).
Proof.
  intros He s. exists [e]. split; [reflexivity|]. constructor; [exact He | constructor].
Qed.

Lemma Emits_spawn P w cmd args : P (EvSpawnSync cmd args) -> Emits P (spawn w cmd args).
Proof.
  intros He s. exists [EvSpawnSync cmd args]. split; [reflexivity|].
  constructor; [exact He | constructor].
Qed.

Lemma Emits_readLine P w prompt : P (EvQuestion prompt) -> Emits P (readLine w prompt).
Proof.
  intros He s. exists [EvQuestion prompt]. split; [reflexivity|].
  constructor; [exact He | constructor].
Qed.

Lemma Emits_existsSync P w p : Emits P (existsSync w p).
Proof. intros s. exists []. simpl. rewrite app_nil_r. split; [reflexivity | constructor]. Qed.

Lemma Emits_statSyncSize P w p : Emits P (statSyncSize w p).
Proof. intros s. exists []. simpl. rewrite app_nil_r. split; [reflexivity | constructor]. Qed.

Lemma Emits_fsSync P w e : P e -> Emits P (fsSync w e).
Proof.
  intros He s. exists [e]. unfold fsSync.
  destruct (fsThrows w (trace s) e); (split; [reflexivity|]);
    (constructor; [exact He | constructor]).
Qed.

Lemma Emits_remove P w dir : P (EvRemove dir) -> Emits P (remove w dir).
Proof.
  intros He s. exists [EvRemove dir]. split; [reflexivity|].
  constructor; [exact He | constructor].
Qed.

Lemma Emits_catchLog P line p : Emits P (catchLog line p).
Proof.
  intros s. exists []. unfold catchLog.
  destruct p; simpl; rewrite app_nil_r; (split; [reflexivity | constructor]).
Qed.

Lemma Emits_autoconfigArtifacts P cfg : Emits P (autoconfigArtifacts cfg).
Proof.
  intros s. exists []. unfold autoconfigArtifacts.
  destruct (autoconfigEach cfg (functions s)) as [r fs]. simpl.
  rewrite app_nil_r. split; [reflexivity | constructor].
Qed.

Lemma Emits_forEach {A} P (f : A -> M unit) xs :
  (forall x, In x xs -> Emits P (f x)) -> Emits P (forEach f xs).
Proof.
  induction xs as [|x xs IH]; intros Hf; simpl.
  - apply Emits_ret.
  - apply Emits_bind; [apply Hf; left; reflexivity | intros _].
    apply IH. intros y Hy. apply Hf. right. exact Hy.
Qed.

Lemma Emits_mapM {A B} P (f : A -> M B) xs :
  (forall x, In x xs -> Emits P (f x)) -> Emits P (mapM f xs).
Proof.
  induction xs as [|x xs IH]; intros Hf; simpl.
  - apply Emits_ret.
  - apply Emits_bind; [apply Hf; left; reflexivity | intros y].
    apply Emits_bind; [|intros ys; apply Emits_ret].
    apply IH. intros z Hz. apply Hf. right. exact Hz.
Qed.

(** Decompose a method into its statements; what remains are the
    conditions on the events of the primitive operations. *)
Ltac emits :=
  repeat first
    [ apply Emits_ret
    | apply Emits_throw
    | apply Emits_existsSync
    | apply Emits_statSyncSize
    | apply Emits_catchLog
    | apply Emits_autoconfigArtifacts
    | match goal with
      | |- Emits ?P (bind (ret ?a) ?k) => change (Emits P (k a)); cbv beta
      end
    | apply Emits_bind; [|intros ?]
    | apply Emits_emit
    | apply Emits_spawn
    | apply Emits_readLine
    | apply Emits_fsSync
    | apply Emits_remove
    | apply Emits_forEach; intros ? _
    | apply Emits_mapM; intros ? _
    | progress cbv zeta
    | match goal with
      | |- Emits _ (if ?b then _ else _) => destruct b
      | |- Emits _ (match ?x with _ => _ end) => destruct x
      end ].

(** [runProcess] adds its spawn and messages for the operator only. *)
Lemma Emits_runProcess P w cmd args :
  P (EvSpawnSync cmd args) ->
  (forall msg, P (EvCliLog msg)) ->
  (forall a, P (EvConsoleLog a)) ->
  (forall p, P (EvQuestion p)) ->
  Emits P (runProcess w cmd args).
Proof.
  intros Hs Hl Hc Hq.
  unfold runProcess, requestUserConfirmation, log, consoleLog, error. emits; auto.
Qed.

Lemma Emits_dockerOnly_runProcess w args : Emits dockerOnly (runProcess w "docker" args).
Proof. apply Emits_runProcess; intros; exact I || reflexivity. Qed.

Lemma Emits_dockerOnly_installRequirements w cfg buildPath req :
  Emits dockerOnly (installRequirements w cfg buildPath req).
Proof.
  unfold installRequirements, log.
  emits; solve [exact I | reflexivity].
Qed.

(** X1.  Every process that the two hooks launch is a [docker] command:
    the installer [pip] is never run on the host. *)
Theorem X1_only_docker_is_launched sls w cfg :
  Emits dockerOnly (beforePackage sls w cfg) /\ Emits dockerOnly (afterDeploy w cfg).
Proof.
  split.
  - unfold beforePackage, setupDocker, checkDocker, ensureImage, setupContainer,
      makePackage, pathJoin, copyInclude, installIfExists, log.
    emits; solve [exact I | reflexivity].
  - unfold afterDeploy, clean, log. emits; solve [exact I | reflexivity].
Qed.

(** X2.  The file operations of [makePackage] stay in the build directory
    of the target: the only directory created is [buildDir/name], every copy
    goes into it, the only archive written is [buildDir/name.zip] made from
    it, and nothing is removed. *)
Theorem X2_makePackage_confined w cfg target n :
  name target = Some n ->
  Emits (confinedTo (path_join w (buildDir cfg) n)) (makePackage w cfg target).
Proof.
  intros Hname. unfold makePackage, pathJoin, copyInclude, installIfExists, log.
  rewrite Hname. emits; solve [exact I | reflexivity | split; reflexivity].
Qed.

Lemma X2_witness :
  Emits (confinedTo "build/api")
        (makePackage Scenario.commonExists Scenario.config Scenario.apiTarget).
Proof.
  exact (X2_makePackage_confined Scenario.commonExists Scenario.config Scenario.apiTarget
           "api" eq_refl).
Defined.

(** X3.  [clean] touches nothing but the build directory and the named
    container: the only removal is that of [buildDir], the only process is
    [docker stop <containerName> -t 0], and nothing is created, copied or
    zipped. *)
Theorem X3_clean_scope w cfg :
  Emits (cleansOnly (buildDir cfg) (containerName cfg)) (clean w cfg).
Proof.
  unfold clean, log. emits; solve [exact I | reflexivity | split; reflexivity].
Qed.

(** ** More on [runProcess] *)

Lemma asked_app evs evs' : asked (evs ++ evs') = (asked evs ++ asked evs')%list.
Proof. apply filter_app. Qed.

(** The processes and the questions of one call of [runProcess]. *)
Lemma runProcess_asks w cmd args s :
  let r := spawnSync w (trace s) cmd args in
  exists evs,
    snd (runProcess w cmd args s) = after s evs
    /\ spawned evs = [EvSpawnSync cmd args]
    /\ asked evs
       = match spawn_error r with
         | Some _ => []
         | None =>
             if (String.length (spawn_stderr r) =? 0)%nat then []
             else match classify (trim (spawn_stderr r)) with
                  | Ambiguous => [EvQuestion defaultPrompt]
                  | _ => []
                  end
         end
    /\ (forall out, fst (runProcess w cmd args s) = Ok out -> out = spawn_stdout r).
Proof.
  intros r. rewrite runProcess_eq. fold r. cbv zeta.
  rewrite requestUserConfirmation_eq.
  destruct (spawn_error r).
  { eexists. repeat split; try reflexivity. intros out H. discriminate H. }
  destruct (String.length (spawn_stderr r) =? 0)%nat.
  { eexists. repeat split; try reflexivity. intros out H. injection H as <-. reflexivity. }
  destruct (classify (trim (spawn_stderr r))); rewrite ?after_after; cbn [app].
  - eexists. repeat split; try reflexivity. intros out H. injection H as <-. reflexivity.
  - eexists. repeat split; try reflexivity. intros out H. injection H as <-. reflexivity.
  - eexists. repeat split; try reflexivity. intros out H. discriminate H.
  - destruct (includes _ "y"); rewrite ?after_after; cbn [app];
      eexists; repeat split; try reflexivity; intros out H;
      [injection H as <-; reflexivity | discriminate H].
Qed.

(** X4.  Whatever the outcome, [runProcess] launches its command exactly
    once and nothing else, and it puts at most one question to the operator:
    exactly one when the process was launched, wrote to stderr and the text
    falls in the ambiguous branch, none otherwise.  A value that it returns
    is the captured stdout, unchanged. *)
Theorem X4_runProcess_accounting w cmd args s :
  let r := spawnSync w (trace s) cmd args in
  exists evs,
    snd (runProcess w cmd args s) = after s evs
    /\ spawned evs = [EvSpawnSync cmd args]
    /\ asked evs
       = match spawn_error r with
         | Some _ => []
         | None =>
             if (String.length (spawn_stderr r) =? 0)%nat then []
             else match classify (trim (spawn_stderr r)) with
                  | Ambiguous => [EvQuestion defaultPrompt]
                  | _ => []
                  end
         end
    /\ (forall out, fst (runProcess w cmd args s) = Ok out -> out = spawn_stdout r).
Proof. exact (runProcess_asks w cmd args s). Qed.





Lemma ascii_not_special c r :
  (nat_of_ascii c <? 128)%nat = true -> startsSpecial (String c r) = false.
Proof.
  intros Hc. unfold startsSpecial, KELVIN_SIGN, CAPITAL_I_DOT, utf8_3, utf8_2.
  rewrite !prefix_cons.
  destruct (Ascii.eqb "226" c) eqn:E1.
  { apply Ascii.eqb_eq in E1. subst c. discriminate Hc. }
  destruct (Ascii.eqb "196" c) eqn:E2.
  { apply Ascii.eqb_eq in E2. subst c. discriminate Hc. }
  reflexivity.
Qed.

Lemma toLowerCase_ascii c r :
  (nat_of_ascii c <? 128)%nat = true ->
  toLowerCase (String c r) = String (lowerChar c) (toLowerCase r).
Proof. intros Hc. apply toLowerCase_plain, ascii_not_special. exact Hc. Qed.

Lemma prefix_toLowerCase n : forall s,
  asciiOnly n = true ->
  prefix n s = true -> prefix (toLowerCase n) (toLowerCase s) = true.
Proof.
  induction n as [|c n IH]; intros s Hn H.
  - apply prefix_nil_l.
  - destruct s as [|d s]; [discriminate H|].
    simpl in Hn. apply andb_true_iff in Hn. destruct Hn as [Hc Hn].
    rewrite prefix_cons in H. apply andb_true_iff in H. destruct H as [Hcd Hp].
    apply Ascii.eqb_eq in Hcd. subst d.
    rewrite !(toLowerCase_ascii c) by exact Hc.
    rewrite prefix_cons, Ascii.eqb_refl. apply IH; assumption.
Qed.

Lemma ascii_differs c d :
  (nat_of_ascii c <? 128)%nat = true -> (nat_of_ascii d <? 128)%nat = false ->
  Ascii.eqb c d = false.
Proof.
  intros Hc Hd. destruct (Ascii.eqb c d) eqn:E; [|reflexivity].
  apply Ascii.eqb_eq in E. congruence.
Qed.

Lemma includes_toLowerCase c n s :
  asciiOnly (String c n) = true ->
  includes s (String c n) = true ->
  includes (toLowerCase s) (toLowerCase (String c n)) = true.
Proof.
  intros Hn. pose proof Hn as Hcn. simpl in Hcn. apply andb_true_iff in Hcn.
  destruct Hcn as [Hc _].
  induction s as [|r IH|r IH|d s Hs IH] using lower_cases; intros H.
  - discriminate H.
  - unfold KELVIN_SIGN, utf8_3 in H. simpl append in H.
    rewrite !includes_skip in H by (apply ascii_differs; [exact Hc | reflexivity]).
    rewrite toLowerCase_kelvin, includes_cons, (IH H). apply orb_true_r.
  - unfold CAPITAL_I_DOT, utf8_2 in H. simpl append in H.
    rewrite !includes_skip in H by (apply ascii_differs; [exact Hc | reflexivity]).
    rewrite toLowerCase_idot. apply includes_app_front. exact (IH H).
  - rewrite includes_cons in H. apply orb_true_iff in H.
    rewrite (toLowerCase_plain d s Hs), includes_cons. apply orb_true_iff.
    destruct H as [H|H].
    + left. rewrite <- (toLowerCase_plain d s Hs).
      apply prefix_toLowerCase; assumption.
    + right. apply IH. exact H.
Qed.

Lemma prefix_app_l n m : forall s, prefix (n ++ m) s = true -> prefix n s = true.
Proof.
  induction n as [|c n IH]; intros s H.
  - destruct s; reflexivity.
  - destruct s as [|d s]; [discriminate H|].
    simpl append in H. rewrite prefix_cons in H. rewrite prefix_cons.
    apply andb_true_iff in H. destruct H as [Hcd Hp].
    rewrite Hcd. apply IH. exact Hp.
Qed.

Lemma includes_app_l s n m : includes s (n ++ m) = true -> includes s n = true.
Proof.
  induction s as [|d s IH]; intros H.
  - rewrite includes_nil in H. rewrite includes_nil. apply (prefix_app_l n m). exact H.
  - rewrite includes_cons in H. rewrite includes_cons.
    apply orb_true_iff in H. apply orb_true_iff. destruct H as [H|H].
    + left. apply (prefix_app_l n m). exact H.
    + right. apply IH. exact H.
Qed.

Lemma marker_is_error text :
  includes text "ERROR:" = true -> includes (toLowerCase text) "error" = true.
Proof.
  intros H. apply includes_toLowerCase in H; [|reflexivity].
  apply (includes_app_l (toLowerCase text) "error" ":"). exact H.
Qed.

(** X6.  A diagnostic with the marker [ERROR:] is never ignored.  When a
    launched process has written [ERROR:] somewhere on stderr, neither
    ignore rule applies, whatever else the text holds ([git clone],
    [warning]): [runProcess] either throws the Docker error or asks the
    operator. *)
Theorem X6_error_marker_never_ignored w cmd args s :
  let r := spawnSync w (trace s) cmd args in
  spawn_error r = None ->
  includes (spawn_stderr r) "ERROR:" = true ->
  (classify (trim (spawn_stderr r)) = Fatal
   /\ fst (runProcess w cmd args s) = Throw (pluginError "Docker Error Detected"))
  \/ (classify (trim (spawn_stderr r)) = Ambiguous
      /\ exists evs, snd (runProcess w cmd args s) = after s evs
                     /\ asked evs = [EvQuestion defaultPrompt]).
Proof.
  intros r Hlaunch Hmarker.
  assert (Hne : spawn_stderr r <> "").
  { intros E. rewrite E in Hmarker. discriminate Hmarker. }
  destruct (substring_tests_ignore_trim (spawn_stderr r)) as (Hm & _ & _ & He & _).
  cbv zeta in Hm, He. rewrite <- Hm in Hmarker.
  pose proof (marker_is_error _ Hmarker) as Herror.
  assert (Hc : classify (trim (spawn_stderr r))
               = if includes (toLowerCase (trim (spawn_stderr r))) "docker"
                 then Fatal else Ambiguous).
  { unfold classify. rewrite Hmarker, Herror. cbn [negb andb].
    rewrite andb_false_r. reflexivity. }
  destruct (runProcess_asks w cmd args s) as (evs & Hs & _ & Hq & _).
  fold r in Hq. rewrite Hlaunch, (nonempty_length _ Hne) in Hq.
  destruct (includes (toLowerCase (trim (spawn_stderr r))) "docker").
  - left. split; [exact Hc|].
    rewrite runProcess_eq. fold r. cbv zeta.
    rewrite Hlaunch, (nonempty_length _ Hne), Hc. reflexivity.
  - right. split; [exact Hc|]. exists evs. split; [exact Hs|].
    rewrite Hc in Hq. exact Hq.
Qed.

Lemma X6_witness :
  (classify (trim (spawn_stderr
                     (spawnSync (Scenario.pipFails "no") [] "docker" Scenario.pipExec)))
   = Fatal
   /\ fst (runProcess (Scenario.pipFails "no") "docker" Scenario.pipExec Scenario.start)
      = Throw (pluginError "Docker Error Detected"))
  \/ (classify (trim (spawn_stderr
                        (spawnSync (Scenario.pipFails "no") [] "docker" Scenario.pipExec)))
      = Ambiguous
      /\ exists evs,
           snd (runProcess (Scenario.pipFails "no") "docker" Scenario.pipExec Scenario.start)
           = after Scenario.start evs
           /\ asked evs = [EvQuestion defaultPrompt]).
Proof.
  apply (X6_error_marker_never_ignored (Scenario.pipFails "no") "docker" Scenario.pipExec
           Scenario.start); reflexivity.
Defined.

(** X7.  The classification reads the captured stderr after trimming, but
    only the count of lines depends on the trimming: each of the substring
    tests (the marker [ERROR:], the phrases [git clone], [warning], [error]
    and [docker]) has the same answer on the captured text itself. *)
Theorem X7_only_line_count_sees_trim (stderr_ : string) :
  let text := trim stderr_ in
  (FalsePositiveRule text
   <-> (lineCount text < 2)%nat
       /\ includes stderr_ "ERROR:" = false
       /\ containsIgnoreCase stderr_ "git clone")
  /\ (WarningRule text <-> WarningRule stderr_)
  /\ (containsIgnoreCase text "docker" <-> containsIgnoreCase stderr_ "docker").
Proof.
  destruct (substring_tests_ignore_trim stderr_) as (Hm & Hg & Hw & He & Hd).
  cbv zeta in *. unfold FalsePositiveRule, WarningRule, containsIgnoreCase.
  change (toLowerCase "git clone") with "git clone".
  change (toLowerCase "warning") with "warning".
  change (toLowerCase "error") with "error".
  change (toLowerCase "docker") with "docker".
  rewrite Hm, Hg, Hw, He, Hd. repeat split; tauto.
Qed.

Lemma X4_witness :
  "Collecting nosuchpackage"
  = spawn_stdout (spawnSync (Scenario.pipFails "Yes") [] "docker" Scenario.pipExec).
Proof.
  destruct (X4_runProcess_accounting (Scenario.pipFails "Yes") "docker" Scenario.pipExec
              Scenario.start) as (evs & _ & _ & _ & H).
  apply H. reflexivity.
Defined.

(** ** More on the configuration *)

Lemma orString_nonempty v d : d <> "" -> orString v d <> "".
Proof.
  intros Hd. unfold orString. destruct v as [s|]; [|exact Hd].
  destruct (String.eqb s "") eqn:E; [exact Hd|].
  apply String.eqb_neq. exact E.
Qed.

Lemma orString_some s d : s <> "" -> orString (Some s) d = s.
Proof.
  intros Hs. unfold orString. apply String.eqb_neq in Hs. rewrite Hs. reflexivity.
Qed.

(** What [getPluginConfig] returns when it returns. *)
Lemma getPluginConfig_ok raw sls cfg :
  getPluginConfig (configure raw sls) = Ok cfg ->
  exists dir,
    raw_buildDir raw = Some dir /\ dir <> ""
    /\ cfg = {| playbooksFolder := raw_playbooksFolder raw;
                requirementsFile := orString (raw_requirementsFile raw) "requirements.txt";
                globalRequirements :=
                  orList (raw_globalRequirements raw) ["./functions/requirements.txt"];
                buildDir := dir;
                globalIncludes := orList (raw_globalIncludes raw) ["./common_files"];
                dockerImage :=
                  orString (raw_dockerImage raw)
                           ("lambci/lambda:build-" ++ template (provider_runtime sls));
                containerName := orString (raw_containerName raw) fullPluginName;
                mountSSH := orBool (raw_mountSSH raw) false;
                dockerEnvs := orList (raw_dockerEnvs raw) [];
                abortOnPackagingErrors := orBool (raw_abortOnPackagingErrors raw) true;
                config_dockerServicePath := "/var/task";
                cleanup := raw_cleanup raw |}.
Proof.
  unfold getPluginConfig. simpl.
  destruct (raw_buildDir raw) as [[|a b]|]; try discriminate.
  intros H. injection H as <-. eexists. split; [reflexivity|]. split; [discriminate|].
  reflexivity.
Qed.

(** X8.  The option [cleanup] has no default.  On a service that leaves it
    out, or sets it to false, the hook after the deployment only logs that
    nothing is cleaned and returns false: nothing is removed and no process
    is launched. *)
Theorem X8_cleanup_off_unless_enabled raw sls w s dir :
  raw_buildDir raw = Some dir -> dir <> "" ->
  raw_cleanup raw <> Some true ->
  cleanService (configure raw sls) w s
  = (Ok false,
     settle (after s [EvCliLog
       (logLine ("Cleanup is set to " ++ char DQUOTE ++ "false" ++ char DQUOTE
                 ++ ". Build directory and Docker container (if used) will be retained"))])).
Proof.
  intros Hdir Hne Hclean.
  unfold cleanService, getPluginConfig. simpl. rewrite Hdir.
  destruct dir as [|a b]; [congruence|].
  unfold runHook, afterDeploy, clean. cbn [cleanup].
  destruct (raw_cleanup raw) as [[]|]; try congruence; reflexivity.
Qed.

Lemma X8_witness :
  cleanService (configure Scenario.onlyBuildDir Scenario.twoLayers)
    (Scenario.silent 0) Scenario.start
  = (Ok false,
     {| trace := [EvCliLog
          (logLine ("Cleanup is set to " ++ char DQUOTE ++ "false" ++ char DQUOTE
                    ++ ". Build directory and Docker container (if used) will be retained"))];
        pending := []; functions := [] |}).
Proof.
  rewrite (X8_cleanup_off_unless_enabled Scenario.onlyBuildDir Scenario.twoLayers
             (Scenario.silent 0) Scenario.start "build" eq_refl).
  - reflexivity.
  - discriminate.
  - discriminate.
Defined.

(** X9.  In a resolved configuration none of the four strings that
    [getPluginConfig] assigns is empty: [requirementsFile], [containerName]
    and [dockerImage] given as the empty string count as absent and take
    their defaults, and [buildDir] is required.  The string
    [playbooksFolder], which the method does not assign, is passed on as it
    is, the empty string included.  A list given as empty is kept empty:
    the defaults of [globalRequirements], [globalIncludes] and [dockerEnvs]
    apply to an absent option only. *)
Theorem X9_empty_strings_defaulted_empty_lists_kept raw sls cfg :
  getPluginConfig (configure raw sls) = Ok cfg ->
  (requirementsFile cfg <> "" /\ containerName cfg <> "" /\ dockerImage cfg <> ""
   /\ buildDir cfg <> "")
  /\ (raw_requirementsFile raw = Some "" -> requirementsFile cfg = "requirements.txt")
  /\ (raw_containerName raw = Some "" -> containerName cfg = "dependency_layer_packager")
  /\ (raw_dockerImage raw = Some "" ->
      dockerImage cfg = "lambci/lambda:build-" ++ template (provider_runtime sls))
  /\ (forall l, raw_globalRequirements raw = Some l -> globalRequirements cfg = l)
  /\ (forall l, raw_globalIncludes raw = Some l -> globalIncludes cfg = l)
  /\ (forall l, raw_dockerEnvs raw = Some l -> dockerEnvs cfg = l)
  /\ playbooksFolder cfg = raw_playbooksFolder raw.
Proof.
  intros H. destruct (getPluginConfig_ok _ _ _ H) as (dir & Hdir & Hne & ->).
  cbn [requirementsFile containerName dockerImage buildDir globalRequirements
       globalIncludes dockerEnvs playbooksFolder].
  repeat split.
  - apply orString_nonempty. discriminate.
  - apply orString_nonempty. discriminate.
  - apply orString_nonempty. discriminate.
  - exact Hne.
  - intros ->. reflexivity.
  - intros ->. reflexivity.
  - intros ->. reflexivity.
  - intros l ->. reflexivity.
  - intros l ->. reflexivity.
  - intros l ->. reflexivity.
Qed.

Lemma X9_witness :
  exists cfg,
    getPluginConfig (configure Scenario.allEmpty Scenario.twoLayers) = Ok cfg
    /\ requirementsFile cfg = "requirements.txt"
    /\ containerName cfg = "dependency_layer_packager"
    /\ dockerImage cfg = "lambci/lambda:build-python3.8"
    /\ globalRequirements cfg = [] /\ globalIncludes cfg = [] /\ dockerEnvs cfg = []
    /\ playbooksFolder cfg = Some "".
Proof.
  eexists. split; [reflexivity|].
  destruct (X9_empty_strings_defaulted_empty_lists_kept Scenario.allEmpty
              Scenario.twoLayers _ eq_refl) as (_ & H1 & H2 & H3 & H4 & H5 & H6 & H7).
  exact (conj (H1 eq_refl) (conj (H2 eq_refl) (conj (H3 eq_refl)
           (conj (H4 _ eq_refl) (conj (H5 _ eq_refl) (conj (H6 _ eq_refl) H7)))))).
Defined.

Lemma resolvedObject_fixed sls cfg :
  requirementsFile cfg <> "" -> containerName cfg <> "" -> dockerImage cfg <> "" ->
  buildDir cfg <> "" -> abortOnPackagingErrors cfg = true ->
  config_dockerServicePath cfg = "/var/task" ->
  getPluginConfig (configure (resolvedObject cfg) sls) = Ok cfg.
Proof.
  destruct cfg as [pf rf gr gi bd cn cl de ms di ab sp]. simpl.
  intros Hrf Hcn Hdi Hbd -> ->.
  destruct rf as [|? ?]; [congruence|]. destruct cn as [|? ?]; [congruence|].
  destruct di as [|? ?]; [congruence|]. destruct bd as [|? ?]; [congruence|].
  unfold getPluginConfig. simpl. destruct ms; reflexivity.
Qed.

(** X10.  Resolution is idempotent.  [getPluginConfig] writes the resolved
    values into the configuration object of the service; resolving that
    object again gives the same configuration. *)
Theorem X10_resolution_idempotent raw sls cfg :
  getPluginConfig (configure raw sls) = Ok cfg ->
  getPluginConfig (configure (resolvedObject cfg) sls) = Ok cfg.
Proof.
  intros H. destruct (getPluginConfig_ok _ _ _ H) as (dir & Hdir & Hne & ->).
  apply resolvedObject_fixed; cbn [requirementsFile containerName dockerImage buildDir
                                   abortOnPackagingErrors config_dockerServicePath].
  - apply orString_nonempty. discriminate.
  - apply orString_nonempty. discriminate.
  - apply orString_nonempty. discriminate.
  - exact Hne.
  - destruct (raw_abortOnPackagingErrors raw) as [[]|]; reflexivity.
  - reflexivity.
Qed.

Lemma X10_witness :
  getPluginConfig (configure (resolvedObject Scenario.config) Scenario.twoLayers)
  = Ok Scenario.config.
Proof.
  exact (X10_resolution_idempotent
           {| raw_playbooksFolder := None; raw_requirementsFile := None;
              raw_globalRequirements := Some ["requirements.txt"];
              raw_globalIncludes := None; raw_buildDir := Some "build";
              raw_containerName := None; raw_cleanup := Some true;
              raw_dockerEnvs := None; raw_mountSSH := None; raw_dockerImage := None;
              raw_abortOnPackagingErrors := None |}
           Scenario.twoLayers Scenario.config eq_refl).
Defined.

(** ** The Docker set-up *)

(** X11.  [ensureImage] pulls the image only when Docker does not list it.
    When the answer of [docker images], trimmed, is the configured image,
    nothing more happens: no log line, no pull.  Otherwise the download is
    announced and [docker pull <image>] is the one further process. *)
Theorem X11_image_pulled_only_when_absent w cfg s out s1 :
  let image := dockerImage cfg in
  let query := ["images"; "--format"; "{{.Repository}}:{{.Tag}}"; "--filter";
                "reference=" ++ image] in
  runProcess w "docker" query s = (Ok out, s1) ->
  (trim out = image -> ensureImage w cfg s = (Ok tt, s1))
  /\ (trim out <> image ->
      spawned (trace (snd (ensureImage w cfg s)))
      = (spawned (trace s)
         ++ [EvSpawnSync "docker" query; EvSpawnSync "docker" ["pull"; image]])%list).
Proof.
  intros image query Hq. unfold ensureImage. fold image. fold query.
  rewrite (bind_ok _ _ _ _ _ Hq). cbv zeta.
  destruct (runProcess_result _ _ _ _ _ _ Hq) as (evs1 & Hs1 & Hn1).
  split; intros Himage.
  - apply String.eqb_eq in Himage. rewrite Himage. reflexivity.
  - apply String.eqb_neq in Himage. rewrite Himage. cbn [negb].
    unfold bind at 1. unfold log at 1, emit at 1. rewrite record_after.
    unfold bind at 1.
    destruct (runProcess w "docker" ["pull"; image] _) as [r s2] eqn:Hpull.
    destruct (runProcess_result _ _ _ _ _ _ Hpull) as (evs2 & -> & Hn2).
    rewrite Hs1.
    destruct r; simpl; rewrite !spawned_app; simpl; rewrite ?spawned_app; simpl;
      rewrite Hn1, Hn2; simpl; rewrite <- ?app_assoc, ?app_nil_r; reflexivity.
Qed.

Lemma X11_witness :
  ensureImage (Scenario.images ("lambci/lambda:build-python3.8" ++ char LF))
    Scenario.config Scenario.start
  = (Ok tt,
     after Scenario.start
       [EvSpawnSync "docker" ["images"; "--format"; "{{.Repository}}:{{.Tag}}"; "--filter";
                              "reference=lambci/lambda:build-python3.8"]])
  /\ spawned (trace (snd (ensureImage (Scenario.images "") Scenario.config Scenario.start)))
     = [EvSpawnSync "docker" ["images"; "--format"; "{{.Repository}}:{{.Tag}}"; "--filter";
                              "reference=lambci/lambda:build-python3.8"];
        EvSpawnSync "docker" ["pull"; "lambci/lambda:build-python3.8"]].
Proof.
  split.
  - destruct (X11_image_pulled_only_when_absent
                (Scenario.images ("lambci/lambda:build-python3.8" ++ char LF))
                Scenario.config Scenario.start _ _ eq_refl) as [H _].
    exact (H eq_refl).
  - destruct (X11_image_pulled_only_when_absent (Scenario.images "") Scenario.config
                Scenario.start _ _ eq_refl) as [_ H].
    apply H. discriminate.
Defined.

(** X12.  When the [docker] binary cannot be launched, [setupDocker] stops
    at the version probe: it throws the framework error with the message of
    the launch failure, and no image is queried or pulled and no container
    is listed, killed or started. *)
Theorem X12_unreachable_engine_stops_setup w cfg s message :
  let probe := ["version"; "-f";
                "Server Version {{.Server.Version}} & Client Version {{.Client.Version}}"] in
  let h := (trace s ++ [EvCliLog (logLine "Packaging using Docker container...")])%list in
  spawn_error (spawnSync w h "docker" probe) = Some message ->
  setupDocker w cfg s
  = (Throw (SlsError ("[dependency_layer_packager] " ++ message)),
     after s [EvCliLog (logLine "Packaging using Docker container...");
              EvSpawnSync "docker" probe]).
Proof.
  intros probe h Herr. unfold setupDocker, checkDocker.
  unfold bind at 1. unfold log at 1, emit at 1. rewrite record_after.
  unfold bind at 1. unfold bind at 1.
  rewrite runProcess_eq. cbv zeta. cbn [trace after].
  fold probe. fold h. rewrite Herr. rewrite after_after. reflexivity.
Qed.

Lemma X12_witness :
  setupDocker Scenario.noDocker Scenario.config Scenario.start
  = (Throw (SlsError "[dependency_layer_packager] spawnSync docker ENOENT"),
     after Scenario.start
       [EvCliLog (logLine "Packaging using Docker container...");
        EvSpawnSync "docker"
          ["version"; "-f";
           "Server Version {{.Server.Version}} & Client Version {{.Client.Version}}"]]).
Proof.
  exact (X12_unreachable_engine_stops_setup Scenario.noDocker Scenario.config
           Scenario.start "spawnSync docker ENOENT" eq_refl).
Defined.

(** ** [autoconfigArtifacts] *)

Lemma autoArtifact_nonempty (dir rest : string) : dir ++ "/" ++ rest <> "".
Proof. destruct dir; simpl; discriminate. Qed.

Lemma autoconfigEach_ok cfg fs :
  fst (autoconfigEach cfg fs) = Ok tt ->
  Forall2 (artifactConfigured cfg) fs (snd (autoconfigEach cfg fs)).
Proof.
  induction fs as [|[k fc] fs IH]; simpl; intros H; [constructor|].
  unfold autoconfigArtifact in *. destruct (fn_package fc) as [pkg|] eqn:Hp; [|discriminate H].
  destruct (autoconfigEach cfg fs) as [r fs'] eqn:E. simpl in *.
  constructor; [|apply IH; exact H].
  split; [reflexivity|]. split; [reflexivity|]. exists pkg. split; [exact Hp | reflexivity].
Qed.

Lemma autoconfigEach_again cfg fs :
  fst (autoconfigEach cfg fs) = Ok tt ->
  autoconfigEach cfg (snd (autoconfigEach cfg fs)) = (Ok tt, snd (autoconfigEach cfg fs)).
Proof.
  induction fs as [|[k fc] fs IH]; simpl; intros H; [reflexivity|].
  unfold autoconfigArtifact in *. destruct (fn_package fc) as [pkg|]; [|discriminate H].
  destruct (autoconfigEach cfg fs) as [r fs'] eqn:E. simpl in *.
  rewrite (IH H). cbn [fn_package fn_name artifact].
  match goal with
  | |- context [String.eqb ?x ""] =>
      assert (Hx : String.eqb x "" = false)
        by (apply String.eqb_neq, orString_nonempty;
            exact (autoArtifact_nonempty (buildDir cfg) (template (fn_name fc) ++ ".zip")));
      rewrite Hx
  end.
  reflexivity.
Qed.

Lemma autoconfigEach_throw cfg fs :
  (exists k fc, In (k, fc) fs /\ fn_package fc = None) ->
  fst (autoconfigEach cfg fs) = Throw (TypeError "Cannot read properties of undefined").
Proof.
  induction fs as [|[k' fc'] fs IH]; intros (k & fc & Hin & Hp); [destruct Hin|].
  simpl. unfold autoconfigArtifact.
  destruct (fn_package fc') as [pkg|] eqn:Hp'; [|reflexivity].
  destruct Hin as [Heq|Hin]; [injection Heq as -> ->; congruence|].
  destruct (autoconfigEach cfg fs) as [r fs'] eqn:E. simpl in *.
  apply IH. exists k, fc. split; assumption.
Qed.

(** X13.  When [autoconfigArtifacts] returns, the functions of the service
    are the same entries in the same order, each with an artifact: the one
    it had configured, or else [buildDir/name.zip].  Nothing is logged or
    launched, and the method is idempotent: a second run changes nothing. *)
Theorem X13_autoconfigArtifacts_fills_and_fixes cfg s s' :
  autoconfigArtifacts cfg s = (Ok tt, s') ->
  trace s' = trace s
  /\ Forall2 (artifactConfigured cfg) (functions s) (functions s')
  /\ autoconfigArtifacts cfg s' = (Ok tt, s').
Proof.
  unfold autoconfigArtifacts. intros H.
  pose proof (autoconfigEach_ok cfg (functions s)) as Hok.
  pose proof (autoconfigEach_again cfg (functions s)) as Hagain.
  destruct (autoconfigEach cfg (functions s)) as [r fs] eqn:E.
  injection H as -> <-. cbn [trace pending functions fst snd] in *.
  split; [reflexivity|]. split; [apply Hok; reflexivity|].
  rewrite (Hagain eq_refl). reflexivity.
Qed.

Lemma X13_witness :
  autoconfigArtifacts Scenario.config
    (initialState [("hello", Scenario.hello); ("resize", Scenario.resize)])
  = (Ok tt,
     initialState
       [("hello", Scenario.hello);
        ("resize", {| fn_name := Some "svc-dev-resize";
                      fn_package := Some {| artifact := Some "build/svc-dev-resize.zip" |} |})])
  /\ autoconfigArtifacts Scenario.config
       (initialState
          [("hello", Scenario.hello);
           ("resize", {| fn_name := Some "svc-dev-resize";
                         fn_package :=
                           Some {| artifact := Some "build/svc-dev-resize.zip" |} |})])
     = (Ok tt,
        initialState
          [("hello", Scenario.hello);
           ("resize", {| fn_name := Some "svc-dev-resize";
                         fn_package :=
                           Some {| artifact := Some "build/svc-dev-resize.zip" |} |})]).
Proof.
  split; [reflexivity|].
  destruct (X13_autoconfigArtifacts_fills_and_fixes Scenario.config
              (initialState [("hello", Scenario.hello); ("resize", Scenario.resize)])
              _ eq_refl) as (_ & _ & H).
  exact H.
Defined.

(** X14.  A function of the service without a [package] property makes the
    packaging hook fail at once with a [TypeError]: nothing is logged, no
    process is launched and no layer is packaged. *)
Theorem X14_function_without_package_stops_hook sls w cfg s :
  (exists key func_config,
     In (key, func_config) (functions s) /\ fn_package func_config = None) ->
  exists s',
    beforePackage sls w cfg s
    = (Throw (TypeError "Cannot read properties of undefined"), s')
    /\ trace s' = trace s /\ pending s' = pending s.
Proof.
  intros H. apply (autoconfigEach_throw cfg) in H.
  unfold beforePackage, bind at 1, autoconfigArtifacts.
  destruct (autoconfigEach cfg (functions s)) as [r fs]. simpl in H. subst r.
  eexists. split; [reflexivity|]. split; reflexivity.
Qed.

Lemma X14_witness :
  exists s',
    beforePackage Scenario.twoLayers (Scenario.silent 0) Scenario.config
      (initialState [("hello", Scenario.hello); ("broken", Scenario.broken)])
    = (Throw (TypeError "Cannot read properties of undefined"), s')
    /\ trace s' = [] /\ pending s' = [].
Proof.
  apply (X14_function_without_package_stops_hook Scenario.twoLayers (Scenario.silent 0)
           Scenario.config
           (initialState [("hello", Scenario.hello); ("broken", Scenario.broken)])).
  exists "broken", Scenario.broken. split; [right; left; reflexivity | reflexivity].
Defined.

(** ** The archives of a packaging run *)

Lemma zipped_app evs evs' : zipped (evs ++ evs') = (zipped evs ++ zipped evs')%list.
Proof. apply filter_app. Qed.

Lemma zipped_notZip evs : Forall notZip evs -> zipped evs = [].
Proof.
  induction 1 as [|e evs He _ IH]; [reflexivity|].
  unfold zipped in *. simpl. unfold notZip in He. rewrite He. exact IH.
Qed.

Lemma ZipsWhenOk_bind_quiet {A B} (Q : list event -> B -> Prop) (m : M A) (k : A -> M B) :
  Emits notZip m -> (forall a, ZipsWhenOk Q (k a)) -> ZipsWhenOk Q (bind m k).
Proof.
  intros Hm Hk s b s' H. unfold bind in H.
  destruct (Hm s) as (evs1 & Ht1 & Hq1).
  destruct (m s) as [[a|e] s1]; [|discriminate H]. simpl in Ht1.
  destruct (Hk a s1 b s' H) as (evs2 & Ht2 & HQ).
  exists (evs1 ++ evs2)%list. rewrite Ht2, Ht1, app_assoc. split; [reflexivity|].
  rewrite zipped_app, (zipped_notZip _ Hq1). exact HQ.
Qed.

(** A successful [makePackage] has written the archive of its target,
    once, and the target has a name. *)
Lemma makePackage_zips w cfg target :
  ZipsWhenOk (fun zs _ => exists n, name target = Some n /\ zs = [archiveOf w cfg n])
             (makePackage w cfg target).
Proof.
  unfold makePackage, pathJoin, copyInclude, installIfExists, log.
  destruct (name target) as [n|].
  - apply ZipsWhenOk_bind_quiet; [emits; reflexivity | intros _].
    change (bind (ret ?a) ?k) with (k a). cbv beta zeta.
    apply ZipsWhenOk_bind_quiet; [emits; reflexivity | intros _].
    apply ZipsWhenOk_bind_quiet; [emits; reflexivity | intros _].
    apply ZipsWhenOk_bind_quiet;
      [unfold installRequirements, runProcess, requestUserConfirmation, log, consoleLog, error;
       emits; reflexivity | intros _].
    intros s a s' H. unfold fsSync in H.
    destruct (fsThrows w (trace s) _); [discriminate H|]. injection H as _ <-.
    eexists. split; [reflexivity|]. exists n. split; reflexivity.
  - intros s a s' H. unfold bind, emit, throw in H. discriminate H.
Qed.

Lemma mapM_makePackage_zips w cfg targets :
  ZipsWhenOk (fun zs (r : list unit) =>
                exists names,
                  map name targets = map Some names
                  /\ zs = map (archiveOf w cfg) names
                  /\ List.length r = List.length targets)
             (mapM (makePackage w cfg) targets).
Proof.
  induction targets as [|t targets IH]; intros s r s' H.
  - simpl in H. injection H as <- <-. exists []. rewrite app_nil_r.
    split; [reflexivity|]. exists []. repeat split.
  - cbn [mapM] in H. unfold bind at 1 in H.
    destruct (makePackage w cfg t s) as [[[]|e] s1] eqn:Ht; [|discriminate H].
    destruct (makePackage_zips w cfg t s tt s1 Ht) as (evs1 & Ht1 & n & Hn & Hz1).
    unfold bind at 1 in H.
    destruct (mapM (makePackage w cfg) targets s1) as [[ys|e] s2] eqn:Hm; [|discriminate H].
    destruct (IH s1 ys s2 Hm) as (evs2 & Ht2 & names & Hnames & Hz2 & Hlen).
    injection H as <- <-.
    exists (evs1 ++ evs2)%list. rewrite Ht2, Ht1, app_assoc. split; [reflexivity|].
    exists (n :: names). simpl. rewrite Hn, Hnames, zipped_app, Hz1, Hz2, Hlen.
    repeat split.
Qed.

(** X15.  A packaging run that succeeds has written exactly one archive
    per layer of the service, in the order of the layers: the archive
    [buildDir/name.zip] of the directory [buildDir/name].  In particular
    every layer has a name, and one result is returned per layer. *)
Theorem X15_one_archive_per_layer sls w cfg s r s' :
  beforePackage sls w cfg s = (Ok r, s') ->
  exists names evs,
    map (fun kv => layer_name (snd kv)) (layers sls) = map Some names
    /\ trace s' = (trace s ++ evs)%list
    /\ zipped evs = map (archiveOf w cfg) names
    /\ List.length r = List.length (layers sls).
Proof.
  intros H.
  assert (Hhook : ZipsWhenOk (fun zs (r : list unit) =>
                    exists names,
                      map name (selectAll sls) = map Some names
                      /\ zs = map (archiveOf w cfg) names
                      /\ List.length r = List.length (selectAll sls))
                    (beforePackage sls w cfg)).
  { unfold beforePackage.
    apply ZipsWhenOk_bind_quiet; [emits | intros _].
    apply ZipsWhenOk_bind_quiet; [emits; reflexivity | intros _].
    apply ZipsWhenOk_bind_quiet;
      [unfold setupDocker, checkDocker, ensureImage, setupContainer, runProcess,
         requestUserConfirmation, log, consoleLog, error;
       emits; reflexivity | intros _].
    apply mapM_makePackage_zips. }
  destruct (Hhook s r s' H) as (evs & Ht & names & Hnames & Hz & Hlen).
  exists names, evs. unfold selectAll in Hnames, Hlen.
  rewrite map_map in Hnames. rewrite length_map in Hlen.
  repeat split; assumption.
Qed.

Lemma X15_witness :
  exists names evs,
    map (fun kv => layer_name (snd kv)) (layers Scenario.twoLayers) = map Some names
    /\ trace (snd (beforePackage Scenario.twoLayers (Scenario.silent 0) Scenario.config
                     Scenario.start))
       = ([] ++ evs)%list
    /\ zipped evs = map (archiveOf (Scenario.silent 0) Scenario.config) names
    /\ List.length [tt; tt] = List.length (layers Scenario.twoLayers).
Proof.
  exact (X15_one_archive_per_layer Scenario.twoLayers (Scenario.silent 0) Scenario.config
           Scenario.start [tt; tt] _ eq_refl).
Defined.

(** X16.  Every process that [makePackage] launches is an installation
    inside the named container into the build directory of the target,
    [docker exec <containerName> pip install --upgrade -t <buildPath> -r
    /var/task/<manifest>], where the manifest is the one of the target or
    one of the global manifests: all of them install into the same
    directory. *)
Theorem X16_makePackage_installs_into_build_dir w cfg target n :
  name target = Some n ->
  let buildPath := path_join w (buildDir cfg) n in
  Emits (installsInto w cfg buildPath
           (path_join w buildPath (requirementsFile cfg) :: globalRequirements cfg))
        (makePackage w cfg target).
Proof.
  intros Hname buildPath. unfold makePackage, pathJoin, log. rewrite Hname.
  apply Emits_bind; [emits; exact I | intros _].
  change (bind (ret ?a) ?k) with (k a). cbv beta zeta. fold buildPath.
  apply Emits_bind; [emits; exact I | intros _].
  apply Emits_bind; [unfold copyInclude; emits; exact I | intros _].
  apply Emits_bind; [|intros _; emits; exact I].
  apply Emits_forEach. intros req Hin.
  unfold installIfExists, installRequirements, runProcess, requestUserConfirmation,
    log, consoleLog, error.
  emits; try exact I.
  split; [reflexivity|]. exists req. split; [exact Hin | reflexivity].
Qed.

Lemma X16_witness :
  Emits (installsInto (Scenario.manifest 24) Scenario.config "build/api"
           ["build/api/requirements.txt"; "requirements.txt"])
        (makePackage (Scenario.manifest 24) Scenario.config Scenario.apiTarget).
Proof.
  exact (X16_makePackage_installs_into_build_dir (Scenario.manifest 24) Scenario.config
           Scenario.apiTarget "api" eq_refl).
Defined.

(** ** Failures during the Docker set-up *)

(** X17.  When the existing container cannot be killed, no new container
    is started: if [runProcess] throws on [docker kill <name>],
    [setupContainer] throws the same exception and the processes launched
    are the listing and the kill alone. *)
Theorem X17_failed_kill_starts_nothing w cfg s out s1 e s2 :
  let name_ := containerName cfg in
  let ps := ["ps"; "-a"; "--filter"; "name=" ++ name_; "--format"; "{{.Names}}"] in
  runProcess w "docker" ps s = (Ok out, s1) ->
  trim out = name_ ->
  runProcess w "docker" ["kill"; name_]
    (after s1 [EvCliLog (logLine "Container already exists. Killing it and reusing.")])
  = (Throw e, s2) ->
  setupContainer w cfg s = (Throw e, s2)
  /\ spawned (trace s2)
     = (spawned (trace s)
        ++ [EvSpawnSync "docker" ps; EvSpawnSync "docker" ["kill"; name_]])%list.
Proof.
  intros name_ ps Hps Hname Hkill.
  destruct (runProcess_result _ _ _ _ _ _ Hps) as (evs1 & Hs1 & Hn1).
  destruct (runProcess_result _ _ _ _ _ _ Hkill) as (evs2 & Hs2 & Hn2).
  split.
  - unfold setupContainer. fold name_. fold ps. rewrite (bind_ok _ _ _ _ _ Hps). cbv zeta.
    apply String.eqb_eq in Hname. rewrite Hname.
    unfold bind at 1. unfold bind at 1. unfold bind at 1.
    unfold log at 1, emit at 1. rewrite record_after.
    unfold bind at 1. rewrite Hkill. reflexivity.
  - rewrite Hs2, Hs1. simpl. rewrite !spawned_app. simpl. rewrite ?spawned_app. simpl.
    rewrite Hn1, Hn2. simpl. rewrite <- ?app_assoc. reflexivity.
Qed.

Lemma X17_witness :
  fst (setupContainer Scenario.killFails Scenario.config Scenario.start)
  = Throw (SlsError "[dependency_layer_packager] spawnSync docker EAGAIN")
  /\ spawned (trace (snd (setupContainer Scenario.killFails Scenario.config Scenario.start)))
     = [EvSpawnSync "docker" ["ps"; "-a"; "--filter"; "name=dependency_layer_packager";
                              "--format"; "{{.Names}}"];
        EvSpawnSync "docker" ["kill"; "dependency_layer_packager"]].
Proof.
  destruct (X17_failed_kill_starts_nothing Scenario.killFails Scenario.config
              Scenario.start _ _ _ _ eq_refl eq_refl eq_refl) as [H1 H2].
  rewrite H1. split; [reflexivity | exact H2].
Defined.

(** X18.  The count of lines of [runProcess] is one more than the number
    of line feeds: a text has fewer than two lines exactly when it holds no
    line feed at all.  So the false-positive rule covers one-line
    diagnostics only. *)
Theorem X18_fewer_than_two_lines_is_one_line text :
  (lineCount text < 2)%nat <-> includes text (char LF) = false.
Proof.
  unfold lineCount.
  assert (Hpos : forall s, (1 <= List.length (split LF s))%nat).
  { induction s as [|c s IH]; simpl; [lia|].
    destruct (Ascii.eqb c LF); [simpl; lia|].
    destruct (split LF s); simpl in *; lia. }
  induction text as [|c s IH].
  - simpl. split; [reflexivity | lia].
  - rewrite includes_cons. unfold char at 1. rewrite prefix_cons.
    replace (prefix "" s) with true by (destruct s; reflexivity).
    rewrite andb_true_r, Ascii.eqb_sym. cbn [split].
    destruct (Ascii.eqb c LF).
    + simpl. specialize (Hpos s). split; [lia | discriminate].
    + simpl orb. rewrite <- IH.
      destruct (split LF s) as [|h t] eqn:E; [specialize (Hpos s); rewrite E in Hpos; simpl in Hpos; lia|].
      simpl. reflexivity.
Qed.

(** X19.  When the Docker set-up fails, no layer is touched: the hook
    throws what [setupDocker] throws, and the one file operation up to that
    point is the creation of [buildDir] that the hook starts, without
    awaiting it, before the set-up; no build directory of a layer has been
    created and nothing has been copied, zipped or removed. *)
Theorem X19_failed_setup_packages_nothing sls w cfg s s0 e s1 :
  autoconfigArtifacts cfg s = (Ok tt, s0) ->
  setupDocker w cfg (after s0 [EvEnsureDir (buildDir cfg)]) = (Throw e, s1) ->
  beforePackage sls w cfg s = (Throw e, s1)
  /\ exists evs,
       trace s1 = (trace s ++ EvEnsureDir (buildDir cfg) :: evs)%list
       /\ Forall noFileOperation evs.
Proof.
  intros Hauto Hsetup. split.
  - unfold beforePackage. rewrite (bind_ok _ _ _ _ _ Hauto).
    unfold bind at 1. unfold emit at 1. rewrite record_after.
    apply bind_throw. exact Hsetup.
  - assert (Hquiet : Emits noFileOperation (setupDocker w cfg)).
    { unfold setupDocker, checkDocker, ensureImage, setupContainer, runProcess,
        requestUserConfirmation, log, consoleLog, error.
      emits; exact I. }
    destruct (Hquiet (after s0 [EvEnsureDir (buildDir cfg)])) as (evs & Ht & Hf).
    rewrite Hsetup in Ht. simpl in Ht.
    assert (Ht0 : trace s0 = trace s).
    { unfold autoconfigArtifacts in Hauto.
      destruct (autoconfigEach cfg (functions s)) as [r fs].
      injection Hauto as _ <-. reflexivity. }
    exists evs. rewrite Ht, Ht0, <- app_assoc. split; [reflexivity | exact Hf].
Qed.

Lemma X19_witness :
  fst (beforePackage Scenario.twoLayers Scenario.daemonStops Scenario.config Scenario.start)
  = Throw (pluginError "Docker Error Detected").
Proof.
  destruct (X19_failed_setup_packages_nothing Scenario.twoLayers Scenario.daemonStops
              Scenario.config Scenario.start _ _ _ eq_refl eq_refl) as [H _].
  rewrite H. reflexivity.
Defined.

(** X20.  An abort by the operator during the cleanup ends the hook after
    the deployment as it ends the packaging: whenever the abort message is
    printed, [clean] throws the error "Aborting" and the message is its
    last event. *)
Theorem X20_abort_ends_cleanup w cfg s :
  exists evs,
    trace (snd (afterDeploy w cfg s)) = (trace s ++ evs)%list
    /\ (In abortEvent evs ->
        fst (afterDeploy w cfg s) = Throw (pluginError "Aborting")
        /\ exists evs', evs = (evs' ++ [abortEvent])%list).
Proof. exact (AbortStops_clean w cfg s). Qed.

Lemma X20_witness :
  fst (afterDeploy (Scenario.pipFails "no") Scenario.config Scenario.start)
  = Throw (pluginError "Aborting").
Proof.
  destruct (X20_abort_ends_cleanup (Scenario.pipFails "no") Scenario.config Scenario.start)
    as (evs & Ht & H).
  apply H. simpl app in Ht. rewrite <- Ht. vm_compute. tauto.
Defined.
